(** * cancer_data: the processing runner and the DepMap transforms

    A shallow embedding of [src/cancer_data/process.py] (the runner
    [__main__], [check_dependencies] and the [Processors] catalog it
    dispatches to) and of the transforms of
    [src/cancer_data/processors/depmap.py] that the specification speaks of.

    Python values are modelled by [Cell]; pandas frames by [Frame] (column
    major, labels and values are Python values); the file system of raw
    downloads and of processed HDF artifacts, and the console trace, by
    [State]; Python exceptions by [Exc]. The pandas code reads the files
    through a reader-with-exceptions monad [R]; the runner threads the
    state through a state-and-exception monad [M]. *)

From Stdlib Require Import String Ascii ZArith List Bool QArith.
From Stdlib Require Import Floats.SpecFloat.
From Stdlib Require Import Sorting.Sorted Sorting.Permutation.
From stdpp Require Import base gmap strings list.

Import ListNotations.
Open Scope string_scope.
Open Scope Z_scope.

(* ------------------------------------------------------------------ *)
(** ** Python values *)

(** A Python value as it occurs in a cell or an axis label of a pandas
    object: [None], a [str], an [int], a [bool], a [float] (binary64) or a
    [numpy.float16] (binary16). A NaN is the float [S754_nan]. *)
Inductive Cell :=
| CNone
| CStr (s : string)
| CInt (z : Z)
| CBool (b : bool)
| CFloat (x : spec_float)
| CHalf (x : spec_float).

Definition NaN : Cell := CFloat S754_nan.

Definition spec_float_eqb (x y : spec_float) : bool :=
  match x, y with
  | S754_zero s, S754_zero t => Bool.eqb s t
  | S754_infinity s, S754_infinity t => Bool.eqb s t
  | S754_nan, S754_nan => true
  | S754_finite s m e, S754_finite t n f =>
      Bool.eqb s t && Pos.eqb m n && Z.eqb e f
  | _, _ => false
  end.

(** Structural equality of values, used as the key equality of a Python
    [dict] built from a column (labels and keys in this code are [str]). *)
Definition cell_eqb (a b : Cell) : bool :=
  match a, b with
  | CNone, CNone => true
  | CStr s, CStr t => String.eqb s t
  | CInt z, CInt w => Z.eqb z w
  | CBool x, CBool y => Bool.eqb x y
  | CFloat x, CFloat y => spec_float_eqb x y
  | CHalf x, CHalf y => spec_float_eqb x y
  | _, _ => false
  end.

(** [x != x] in Python: true exactly for a NaN. *)
Definition py_ne_self (c : Cell) : bool :=
  match c with
  | CFloat S754_nan | CHalf S754_nan => true
  | _ => false
  end.

(* ------------------------------------------------------------------ *)
(** ** Decimal text of integers and floats *)

Definition digit_char (d : Z) : ascii := ascii_of_nat (48 + Z.to_nat d).

(** Decimal digits of a non-negative integer, with a fuel bounded by the
    number of bits. *)
Fixpoint digits_fuel (fuel : nat) (n : Z) (acc : string) : string :=
  match fuel with
  | O => acc
  | S k =>
      let acc' := String (digit_char (n mod 10)) acc in
      if Z.ltb n 10 then acc' else digits_fuel k (n / 10) acc'
  end.

Definition nat_digits (n : Z) : string :=
  digits_fuel (S (Z.to_nat (Z.log2 (Z.abs n)))) (Z.abs n) "".

(** [str(z)] for a Python [int]. *)
Definition int_repr (z : Z) : string :=
  if Z.ltb z 0 then "-" +:+ nat_digits z else nat_digits z.

Fixpoint zeros (n : nat) : string :=
  match n with O => "" | S k => String "0" (zeros k) end.

Section ShortestRepr.
(** The precision and maximal exponent of the binary format: 53 and 1024
    for a Python [float], 11 and 16 for a [numpy.float16]. *)
Variables prec emax : Z.

(** [D * 10^q] compared with [a * 2^k], on integers. *)
Definition cmp_dec_bin (D q a k : Z) : comparison :=
  Z.compare (D * 10 ^ Z.max q 0 * 2 ^ Z.max (- k) 0)
            (a * 2 ^ Z.max k 0 * 10 ^ Z.max (- q) 0).

(** [D * 10^q] rounds (to nearest, ties to even) to the finite float
    [m * 2^e]: it lies in the rounding interval of [m * 2^e], whose lower
    half-width is halved at a power of two. *)
Definition rounds_to (m e D q : Z) : bool :=
  let asym := Z.eqb m (2 ^ (prec - 1)) && Z.ltb (emin prec emax) e in
  let lo := 4 * m - (if asym then 1 else 2) in
  let hi := 4 * m + 2 in
  let ev := Z.even m in
  match cmp_dec_bin D q lo (e - 2), cmp_dec_bin D q hi (e - 2) with
  | Gt, Lt => true
  | Eq, Lt | Gt, Eq => ev
  | _, _ => false
  end.

Definition ndigits (n : Z) : Z := Z.of_nat (String.length (nat_digits n)).

(** [floor (log10 (num / den))] for positive [num] and [den]. *)
Definition exp10 (num den : Z) : Z :=
  if Z.leb den num then ndigits (num / den) - 1
  else let c := (den + num - 1) / num in - ndigits (c - 1).

Fixpoint strip_zeros (fuel : nat) (D q : Z) : Z * Z :=
  match fuel with
  | O => (D, q)
  | S k => if Z.eqb (D mod 10) 0 && negb (Z.eqb D 0)
           then strip_zeros k (D / 10) (q + 1) else (D, q)
  end.

(** The shortest decimal [D * 10^q] that rounds back to [m * 2^e], the
    closest one to it among the shortest (as [repr] does). *)
Fixpoint shortest_from (fuel : nat) (k : Z) (m e num den E : Z) : Z * Z :=
  match fuel with
  | O => (m, 0)
  | S f =>
      let q := E - k + 1 in
      let n' := num * 10 ^ Z.max (- q) 0 in
      let d' := den * 10 ^ Z.max q 0 in
      let lo := n' / d' in
      let r := n' mod d' in
      let hi := lo + 1 in
      let okl := rounds_to m e lo q in
      let okh := negb (Z.eqb r 0) && rounds_to m e hi q in
      if okl && okh then
        match Z.compare (2 * r) d' with
        | Lt => strip_zeros 40 lo q
        | Gt => strip_zeros 40 hi q
        | Eq => strip_zeros 40 (if Z.even lo then lo else hi) q
        end
      else if okl then strip_zeros 40 lo q
      else if okh then strip_zeros 40 hi q
      else shortest_from f (k + 1) m e num den E
  end.

Definition shortest_digits (m : positive) (e : Z) : Z * Z :=
  let num := Zpos m * 2 ^ Z.max e 0 in
  let den := 2 ^ Z.max (- e) 0 in
  shortest_from 40 1 (Zpos m) e num den (exp10 num den).
End ShortestRepr.

(** The layout of [repr] (Python's ['r'] format): positional notation when
    the decimal point falls in [-3 .. 16], exponent notation otherwise. *)
Definition layout_digits (D q : Z) : string :=
  let ds := nat_digits D in
  let n := Z.of_nat (String.length ds) in
  let decpt := n + q in
  if Z.leb decpt (-4) || Z.ltb 16 decpt then
    let x := decpt - 1 in
    String.substring 0 1 ds
      +:+ (if Z.ltb 1 n then "." +:+ String.substring 1 (Z.to_nat n) ds else "")
      +:+ "e" +:+ (if Z.ltb x 0 then "-" else "+")
      +:+ (if Z.ltb (Z.abs x) 10 then "0" else "") +:+ nat_digits x
  else if Z.leb decpt 0 then "0." +:+ zeros (Z.to_nat (- decpt)) +:+ ds
  else if Z.leb n decpt then ds +:+ zeros (Z.to_nat (decpt - n)) +:+ ".0"
  else String.substring 0 (Z.to_nat decpt) ds +:+ "."
         +:+ String.substring (Z.to_nat decpt) (Z.to_nat n) ds.

Definition float_repr (prec emax : Z) (x : spec_float) : string :=
  match x with
  | S754_zero s => if s then "-0.0" else "0.0"
  | S754_infinity s => if s then "-inf" else "inf"
  | S754_nan => "nan"
  | S754_finite s m e =>
      let '(D, q) := shortest_digits prec emax m e in
      (if s then "-" else "") +:+ layout_digits D q
  end.

(** [str(v)] of a Python value. *)
Definition py_str (c : Cell) : string :=
  match c with
  | CNone => "None"
  | CStr s => s
  | CInt z => int_repr z
  | CBool b => if b then "True" else "False"
  | CFloat x => float_repr 53 1024 x
  | CHalf x => float_repr 11 16 x
  end.

(* ------------------------------------------------------------------ *)
(** ** Strings as Python splits and slices them *)

(** [s.split(sep)] for a non-empty separator: [""] splits to [[""]]. *)
Fixpoint split_fuel (fuel : nat) (sep s : string) : list string :=
  match fuel with
  | O => [s]
  | S f =>
      match s with
      | EmptyString => [""]
      | String c rest =>
          if String.prefix sep s
          then "" :: split_fuel f sep
                      (String.substring (String.length sep) (String.length s) s)
          else match split_fuel f sep rest with
               | x :: xs => String c x :: xs
               | [] => [String c ""]
               end
      end
  end.

Definition py_split (sep s : string) : list string :=
  split_fuel (S (String.length s)) sep s.

(** [s.replace(old, new)] for a non-empty [old]: every occurrence, left
    to right, which is [new.join(s.split(old))]. *)
Definition py_replace (old new s : string) : string :=
  String.concat new (py_split old s).

(** [str.lower] and [str.upper] of one character, on the ASCII letters
    (other characters are returned as they are). *)
Definition ascii_lower (a : ascii) : ascii :=
  let n := nat_of_ascii a in
  if (Nat.leb 65 n && Nat.leb n 90)%nat then ascii_of_nat (n + 32) else a.

Definition ascii_upper (a : ascii) : ascii :=
  let n := nat_of_ascii a in
  if (Nat.leb 97 n && Nat.leb n 122)%nat then ascii_of_nat (n - 32) else a.

Fixpoint str_lower (s : string) : string :=
  match s with
  | EmptyString => EmptyString
  | String c r => String (ascii_lower c) (str_lower r)
  end.

(** [s.capitalize()]: the first character upper case, the rest lower case. *)
Definition py_capitalize (s : string) : string :=
  match s with
  | EmptyString => EmptyString
  | String c r => String (ascii_upper c) (str_lower r)
  end.

(** [s[:-1]] *)
Definition drop_last (s : string) : string :=
  String.substring 0 (String.length s - 1) s.

(* ------------------------------------------------------------------ *)
(** ** Frames, files and the effects of the code *)

(** A pandas [DataFrame]: the row labels, and the columns in order, each
    with its label and its values (one per row). *)
Record Frame := mkFrame {
  fr_index : list Cell;
  fr_columns : list (Cell * list Cell)
}.

(** A downloaded delimited text file, as the CSV reader tokenises and
    types it: its header and its rows (the separator is already applied). *)
Record RawTable := mkRawTable {
  rt_header : list string;
  rt_rows : list (list Cell)
}.

(** The Python exceptions the modelled code can raise. *)
Inductive Exc :=
| AssertionError (msg : string)
| KeyError (key : Cell)
| FileNotFoundError (path : string)
| IndexError
| AttributeError
| TypeError
| ValueError
| OverflowError.

(** Console output of the runner and the calls it makes to transforms. *)
Inductive Event :=
| EvSkipped (id : string)
| EvProcessing (id : string)
| EvCall (name raw_path output_id : string).

(** The downloaded raw files, the processed artifacts (HDF files, by path)
    and the trace, most recent event first. *)
Record State := mkState {
  st_downloads : gmap string RawTable;
  st_processed : gmap string Frame;
  st_trace : list Event
}.

(** The files the code reads: the downloads and the processed artifacts. *)
Record Files := mkFiles {
  fs_downloads : gmap string RawTable;
  fs_processed : gmap string Frame
}.

Definition files (st : State) : Files := mkFiles (st_downloads st) (st_processed st).

(** The code that only reads files and computes (the pandas layer and the
    transforms before they persist their result) runs in [R]: it sees the
    files and returns a value or raises. *)
Definition R (A : Type) : Type := Files -> Exc + A.

Definition ret {A} (a : A) : R A := fun _ => inr a.

Definition bind {A B} (m : R A) (k : A -> R B) : R B :=
  fun fs => match m fs with
            | inl e => inl e
            | inr a => k a fs
            end.

Definition raise {A} (e : Exc) : R A := fun _ => inl e.

Notation "'let*' x ':=' m 'in' k" := (bind m (fun x => k))
  (at level 200, x binder, m at level 100, k at level 200).

Fixpoint mapM {A B} (f : A -> R B) (l : list A) : R (list B) :=
  match l with
  | [] => ret []
  | x :: xs => let* y := f x in let* ys := mapM f xs in ret (y :: ys)
  end.

(** The runner also writes artifacts and prints: it runs in [M], which
    threads the state and keeps it when an exception propagates. *)
Inductive Outcome (A : Type) :=
| Ok (a : A) (st : State)
| Raise (e : Exc) (st : State).
Arguments Ok {A} a st.
Arguments Raise {A} e st.

(** The state an outcome leaves, whether it returns or raises. *)
Definition outcome_state {A} (o : Outcome A) : State :=
  match o with Ok _ st => st | Raise _ st => st end.

Definition M (A : Type) : Type := State -> Outcome A.

Definition retM {A} (a : A) : M A := fun st => Ok a st.

Definition bindM {A B} (m : M A) (k : A -> M B) : M B :=
  fun st => match m st with
            | Ok a st' => k a st'
            | Raise e st' => Raise e st'
            end.

Definition raiseM {A} (e : Exc) : M A := fun st => Raise e st.

Notation "'let+' x ':=' m 'in' k" := (bindM m (fun x => k))
  (at level 200, x binder, m at level 100, k at level 200).

(** Reading code called from the runner. *)
Definition lift {A} (m : R A) : M A :=
  fun st => match m (files st) with
            | inl e => Raise e st
            | inr a => Ok a st
            end.

Definition log (ev : Event) : M unit :=
  fun st => Ok tt (mkState (st_downloads st) (st_processed st) (ev :: st_trace st)).

Fixpoint iterM {A} (f : A -> M unit) (l : list A) : M unit :=
  match l with
  | [] => retM tt
  | x :: xs => let+ _ := f x in iterM f xs
  end.

(* ------------------------------------------------------------------ *)
(** ** pandas *)

Fixpoint range_index (k n : nat) : list Cell :=
  match n with O => [] | S n' => CInt (Z.of_nat k) :: range_index (S k) n' end.

Definition raw_column (rows : list (list Cell)) (j : nat) : list Cell :=
  map (fun r => nth j r NaN) rows.

(** [pd.read_csv(path)]: a [RangeIndex] and one column per header field
    (missing trailing fields are NaN). *)
Definition read_csv (path : string) : R Frame :=
  fun fs =>
    match fs_downloads fs !! path with
    | None => inl (FileNotFoundError path)
    | Some t =>
        inr (mkFrame (range_index 0 (length (rt_rows t)))
                     (imap (fun j h => (CStr h, raw_column (rt_rows t) j))
                           (rt_header t)))
    end.

(** [pd.read_csv(path, index_col=0)]: the first field is the row label. *)
Definition read_csv_index0 (path : string) : R Frame :=
  fun fs =>
    match fs_downloads fs !! path with
    | None => inl (FileNotFoundError path)
    | Some t =>
        inr (mkFrame (raw_column (rt_rows t) 0)
                     (imap (fun j h => (CStr h, raw_column (rt_rows t) (S j)))
                           (tail (rt_header t))))
    end.

(** [pd.read_hdf(path)] *)
Definition read_hdf (path : string) : R Frame :=
  fun fs =>
    match fs_processed fs !! path with
    | None => inl (FileNotFoundError path)
    | Some df => inr df
    end.

(** [df[name]]: the first column with that label. *)
Definition getcol (df : Frame) (name : string) : R (list Cell) :=
  match find (fun c => cell_eqb (fst c) (CStr name)) (fr_columns df) with
  | Some (_, v) => ret v
  | None => raise (KeyError (CStr name))
  end.

(** [df[name] = values]: replaces the column, or appends a new one. *)
Definition setcol (df : Frame) (name : string) (v : list Cell) : Frame :=
  if existsb (fun c => cell_eqb (fst c) (CStr name)) (fr_columns df)
  then mkFrame (fr_index df)
         (map (fun c => if cell_eqb (fst c) (CStr name) then (fst c, v) else c)
              (fr_columns df))
  else mkFrame (fr_index df) (fr_columns df ++ [(CStr name, v)]).

(** [df.astype(str)] *)
Definition astype_str (df : Frame) : Frame :=
  mkFrame (fr_index df)
    (map (fun c => (fst c, map (fun v => CStr (py_str v)) (snd c))) (fr_columns df)).

(** [df.T] *)
Definition transpose (df : Frame) : Frame :=
  mkFrame (map fst (fr_columns df))
    (imap (fun i l => (l, map (fun c => nth i (snd c) NaN) (fr_columns df)))
          (fr_index df)).

(** A Python [dict] built by [dict(zip(keys, values))]: an association
    list; a later key overrides an earlier one. *)
Definition py_dict := list (Cell * Cell).

Definition dict_zip (ks vs : list Cell) : py_dict := combine ks vs.

(** [d.get(k)]: the value of the last binding of [k], or [None]. *)
Definition dict_get (d : py_dict) (k : Cell) : Cell :=
  fold_left (fun acc kv => if cell_eqb (fst kv) k then snd kv else acc) d CNone.

(** [map(d.get, labels)] and [labels.map(d.get)]: relabelling an axis. *)
Definition relabel (d : py_dict) (labels : list Cell) : list Cell :=
  map (dict_get d) labels.

(** [int(s)] of a Python [str]: surrounding white space, an optional sign,
    decimal digits with single underscores between them. *)
Definition is_space (a : ascii) : bool :=
  match nat_of_ascii a with
  | 32 | 9 | 10 | 11 | 12 | 13 | 28 | 29 | 30 | 31 => true
  | _ => false
  end%nat.

Definition is_digit (a : ascii) : bool :=
  (Nat.leb 48 (nat_of_ascii a) && Nat.leb (nat_of_ascii a) 57)%nat.

Fixpoint strip_left (l : list ascii) : list ascii :=
  match l with
  | a :: r => if is_space a then strip_left r else l
  | [] => []
  end.

Definition strip (s : string) : list ascii :=
  rev (strip_left (rev (strip_left (list_ascii_of_string s)))).

(** Digits with single underscores between them, accumulated into [acc]. *)
Fixpoint parse_digits (l : list ascii) (acc : Z) : option Z :=
  match l with
  | [] => Some acc
  | a :: r =>
      if is_digit a then parse_digits r (10 * acc + Z.of_nat (nat_of_ascii a - 48))
      else if Ascii.eqb a "_"%char then
        match r with
        | b :: _ => if is_digit b then parse_digits r acc else None
        | [] => None
        end
      else None
  end.

Definition parse_unsigned (l : list ascii) : option Z :=
  match l with
  | a :: _ => if is_digit a then parse_digits l 0 else None
  | [] => None
  end.

Definition py_int_of_string (s : string) : option Z :=
  match strip s with
  | a :: r =>
      if Ascii.eqb a "-"%char then option_map Z.opp (parse_unsigned r)
      else if Ascii.eqb a "+"%char then parse_unsigned r
      else parse_unsigned (a :: r)
  | [] => None
  end.

(** numpy's [int64] range: [int()] of a value outside it is refused
    with [OverflowError] when numpy stores it as a C [long]. *)
Definition in_int64 (z : Z) : bool := (Z.leb (- 2 ^ 63) z && Z.ltb z (2 ^ 63))%Z.

Definition to_int64 (z : Z) : R Cell :=
  if in_int64 z then ret (CInt z) else raise OverflowError.

(** An [int] that numpy's [int64] holds. *)
Definition is_int64_cell (c : Cell) : bool :=
  match c with CInt z => in_int64 z | _ => false end.

(** [astype(int)] of one value, to numpy's [int64]: a Python [str] or
    [int] goes through [int()] and then a C [long], which raises
    [OverflowError] out of range; a float is truncated toward zero. *)
Definition to_int (c : Cell) : R Cell :=
  match c with
  | CStr s => match py_int_of_string s with
              | Some z => to_int64 z
              | None => raise ValueError
              end
  | CInt z => to_int64 z
  | CBool b => ret (CInt (if b then 1 else 0))
  | CFloat (S754_zero _) | CHalf (S754_zero _) => ret (CInt 0)
  | CFloat (S754_finite s m e) | CHalf (S754_finite s m e) =>
      let t := if Z.leb 0 e then Zpos m * 2 ^ e else Z.quot (Zpos m) (2 ^ (- e)) in
      ret (CInt (if s then - t else t))
  | CFloat _ | CHalf _ => raise ValueError
  | CNone => raise TypeError
  end.

(** [float(s)] of a Python [str]: surrounding white space, an optional
    sign, then [inf], [infinity] or [nan] in any case, or a decimal
    literal [digits [. [digits]] | . digits] with an optional exponent
    [(e|E) [sign] digits], where [digits] have single underscores
    between them. The value is the decimal rounded to the nearest
    binary64, ties to even. *)
Definition digit_of (a : ascii) : option Z :=
  if is_digit a then Some (Z.of_nat (nat_of_ascii a - 48)) else None.

(** A run of digits with single underscores between digits, read on from
    [acc] after [n] digits: its value, its number of digits and the rest
    of the text. *)
Fixpoint digit_run (l : list ascii) (acc : Z) (n : nat) : Z * nat * list ascii :=
  match l with
  | [] => (acc, n, [])
  | a :: r =>
      match digit_of a with
      | Some d => digit_run r (10 * acc + d) (S n)
      | None =>
          if Ascii.eqb a "_"%char && negb (Nat.eqb n 0) then
            match r with
            | b :: r' =>
                match digit_of b with
                | Some d => digit_run r' (10 * acc + d) (S n)
                | None => (acc, n, l)
                end
            | [] => (acc, n, l)
            end
          else (acc, n, l)
      end
  end.

Definition split_sign (l : list ascii) : bool * list ascii :=
  match l with
  | a :: r =>
      if Ascii.eqb a "-"%char then (true, r)
      else if Ascii.eqb a "+"%char then (false, r)
      else (false, l)
  | [] => (false, [])
  end.

(** The exponent after [e] or [E]. *)
Definition parse_exponent (l : list ascii) : option Z :=
  let '(neg, r) := split_sign l in
  match digit_run r 0 0 with
  | (x, S _, []) => Some (if neg then - x else x)
  | _ => None
  end.

(** An unsigned decimal literal as [(m, k)], its value being [m * 10 ^ k]. *)
Definition parse_decimal (l : list ascii) : option (Z * Z) :=
  let '(m1, n1, r1) := digit_run l 0 0 in
  let '(m, nf, r) :=
    match r1 with
    | a :: r' => if Ascii.eqb a "."%char then digit_run r' m1 0 else (m1, 0%nat, r1)
    | [] => (m1, 0%nat, r1)
    end in
  if Nat.eqb (n1 + nf) 0 then None
  else match r with
       | [] => Some (m, - Z.of_nat nf)
       | a :: r' =>
           if Ascii.eqb a "e"%char || Ascii.eqb a "E"%char
           then option_map (fun k => (m, k - Z.of_nat nf)) (parse_exponent r')
           else None
       end.

(** [m * 10 ^ k] rounded to binary64, negated if [neg]. *)
Definition decimal_to_double (neg : bool) (m k : Z) : spec_float :=
  if Z.eqb m 0 then S754_zero neg
  else if Z.leb 0 k then
    binary_normalize 53 1024 (if neg then - (m * 10 ^ k) else m * 10 ^ k) 0 neg
  else
    let '(q, e, loc) := SFdiv_core_binary 53 1024 m 0 (10 ^ (- k)) 0 in
    binary_round_aux 53 1024 neg q e loc.

Definition py_float_of_string (s : string) : option spec_float :=
  let '(neg, body) := split_sign (strip s) in
  let w := string_of_list_ascii (map ascii_lower body) in
  if String.eqb w "inf" || String.eqb w "infinity" then Some (S754_infinity neg)
  else if String.eqb w "nan" then Some S754_nan
  else option_map (fun mk => decimal_to_double neg (fst mk) (snd mk)) (parse_decimal body).

(** numpy's [npy_double_to_half]: a binary64 rounded to nearest binary16,
    ties to even, overflowing to infinity. *)
Definition double_to_half (x : spec_float) : spec_float :=
  match x with
  | S754_finite s m e => binary_round 11 16 s m e
  | _ => x
  end.

(** [astype(np.float16)] of one value. A float is rounded to binary16. A
    Python object goes through numpy's [MyPyFloat_AsDouble]: [None] is
    NaN, anything else is converted by [float()] (text parsed as above,
    an [int] too large for a binary64 raising [OverflowError]), and the
    binary64 is rounded to binary16. *)
Definition to_float16 (c : Cell) : R Cell :=
  match c with
  | CFloat x => ret (CHalf (double_to_half x))
  | CHalf x => ret (CHalf x)
  | CInt z =>
      match binary_normalize 53 1024 z 0 false with
      | S754_infinity _ => raise OverflowError
      | x => ret (CHalf (double_to_half x))
      end
  | CBool b => ret (CHalf (binary_normalize 11 16 (if b then 1 else 0) 0 false))
  | CStr s =>
      match py_float_of_string s with
      | Some x => ret (CHalf (double_to_half x))
      | None => raise ValueError
      end
  | CNone => ret (CHalf S754_nan)
  end.

(** [df.astype(np.float16)] *)
Definition astype_float16 (df : Frame) : R Frame :=
  let* cols := mapM (fun c => let* v := mapM to_float16 (snd c) in ret (fst c, v))
                    (fr_columns df) in
  ret (mkFrame (fr_index df) cols).


(** [df[name] = df[name].astype(int)] *)
Definition col_astype_int (df : Frame) (name : string) : R Frame :=
  let* v := getcol df name in
  let* v' := mapM to_int v in
  ret (setcol df name v').

(** [parentheses_to_snake] of process.py:
    [x_split = x.split(" ("); f"{x_split[0]}_{x_split[1][:-1]}"]. *)
Definition parentheses_to_snake (x : Cell) : R Cell :=
  match x with
  | CStr s =>
      match py_split " (" s with
      | a :: b :: _ => ret (CStr (a +:+ "_" +:+ drop_last b))
      | _ => raise IndexError
      end
  | _ => raise AttributeError
  end.

(** [df.columns = labels] and [df.index = labels] *)
Definition set_columns (df : Frame) (labels : list Cell) : Frame :=
  mkFrame (fr_index df) (combine labels (map snd (fr_columns df))).

Definition set_index (df : Frame) (labels : list Cell) : Frame :=
  mkFrame labels (fr_columns df).

Definition column_labels (df : Frame) : list Cell := map fst (fr_columns df).

(** [df.columns.astype(str)] and [df.index.astype(str)] *)
Definition labels_astype_str (labels : list Cell) : list Cell :=
  map (fun l => CStr (py_str l)) labels.

(** What a transform returns to its caller: [None] or a table. *)
Inductive PyRet :=
| RetNone
| RetFrame (df : Frame).

(* ------------------------------------------------------------------ *)
(** ** [src/cancer_data/process.py] *)

Module Process.
Section Process.
Variables PROCESSED_DIR DOWNLOAD_DIR : string.

Definition h5_path (id : string) : string := PROCESSED_DIR +:+ "/" +:+ id +:+ ".h5".

(** Modelled from the spec: [utils.file_exists] (not in src/), the
    existence check of the processed-table store: an artifact exists at
    the path. *)
Definition file_exists (path : string) : M bool :=
  fun st => Ok (bool_decide (is_Some (st_processed st !! path))) st.

(** Modelled from the spec: [utils.export_hdf] (not in src/), which
    persists a table under the dataset id, at the storage path
    [PROCESSED_DIR/<id>.h5] that the runner and [check_dependencies] test. *)
Definition export_hdf (output_id : string) (df : Frame) : M unit :=
  fun st => Ok tt (mkState (st_downloads st) (<[h5_path output_id := df]> (st_processed st))
                           (st_trace st)).

Definition dependency_message (d : string) : string :=
  "Dependency " +:+ d +:+ " does not exist.".

(** [check_dependencies(dependencies)] *)
Definition check_dependencies (dependencies : Cell) : M unit :=
  match dependencies with
  | CNone => retM tt
  | _ =>
      if py_ne_self dependencies then retM tt else
      match dependencies with
      | CStr s =>
          iterM (fun d =>
                   let d_file := h5_path d in
                   let+ ok := file_exists d_file in
                   if ok then retM tt else raiseM (AssertionError (dependency_message d)))
                (py_split "," s)
      | _ => raiseM AttributeError
      end
  end.

(** The body of a transform of the catalog: everything before its final
    [export_hdf(output_id, df)], from the raw path to the table [df]. *)
Definition Body := string -> R Frame.

(** A method [def name(raw_path, output_id)] of [Processors]: every one
    of them computes [df] and ends with [export_hdf(output_id, df)]; it
    returns [None]. *)
Definition Handler := string -> string -> M PyRet.

Definition exporting (body : Body) : Handler :=
  fun raw_path output_id =>
    let+ df := lift (body raw_path) in
    let+ _ := export_hdf output_id df in
    retM RetNone.

(** The method of a catalog with a given name. *)
Definition lookup_method (catalog : list (string * Body)) (name : string) : option Body :=
  match find (fun nb => String.eqb (fst nb) name) catalog with
  | Some (_, body) => Some body
  | None => None
  end.

(** [getattr(Processors, name, None)] over a catalog of methods. *)
Definition getattr_Processors (catalog : list (string * Body)) (name : string)
  : option Handler :=
  option_map exporting (lookup_method catalog name).

(** A row of [SCHEMA]. *)
Record Descriptor := mkDescriptor {
  d_id : string;
  d_type : string;
  d_downloaded_name : string;
  d_dependencies : Cell
}.

Definition materializable (type_ : string) : bool :=
  String.eqb type_ "primary_dataset" || String.eqb type_ "secondary_dataset".

(** One iteration of the loop of [__main__]. *)
Definition run_file (catalog : list (string * Body)) (file : Descriptor) : M unit :=
  if materializable (d_type file) then
    let output_path := h5_path (d_id file) in
    let+ done_ := file_exists output_path in
    if done_ then log (EvSkipped (d_id file))
    else
      match getattr_Processors catalog (d_id file) with
      | None => retM tt
      | Some handler =>
          let raw_path := DOWNLOAD_DIR +:+ "/" +:+ d_downloaded_name file in
          let+ _ := log (EvProcessing (d_id file)) in
          let+ _ := check_dependencies (d_dependencies file) in
          let+ _ := log (EvCall (d_id file) raw_path (d_id file)) in
          let+ _ := handler raw_path (d_id file) in
          retM tt
      end
  else retM tt.

(** [for _, file in SCHEMA.iterrows(): ...] *)
Definition run_schema (catalog : list (string * Body)) (schema : list Descriptor) : M unit :=
  iterM (run_file catalog) schema.

(** [ccle_annotations]: read, [astype(str)]. *)
Definition ccle_annotations : Body :=
  fun raw_path =>
    let* df := read_csv raw_path in
    ret (astype_str df).

(** [ccle_rppa]: antibody columns and cell-line rows relabelled through
    the lookup maps built from two processed tables. *)
Definition ccle_rppa : Body :=
  fun raw_path =>
    let* df := read_csv_index0 raw_path in
    let* ccle_rppa_info := read_hdf (h5_path "ccle_rppa_info") in
    let* k1 := getcol ccle_rppa_info "Antibody_Name" in
    let* v1 := getcol ccle_rppa_info "format_id" in
    let antibody_name_map := dict_zip k1 v1 in
    let* ccle_annotations := read_hdf (h5_path "ccle_annotations") in
    let* k2 := getcol ccle_annotations "CCLE_ID" in
    let* v2 := getcol ccle_annotations "depMapID" in
    let ccle_to_depmap := dict_zip k2 v2 in
    let df := set_columns df (relabel antibody_name_map (column_labels df)) in
    let df := set_index df (relabel ccle_to_depmap (fr_index df)) in
    ret df.

(** [avana]: columns renamed by [parentheses_to_snake], values downcast. *)
Definition avana : Body :=
  fun raw_path =>
    let* df := read_csv_index0 raw_path in
    let* cols := mapM parentheses_to_snake (column_labels df) in
    let df := set_columns df cols in
    astype_float16 df.

(** [drive] (and [achilles], the same body): cell-line columns relabelled
    through the annotations, gene rows renamed, both axes cast to [str],
    transposed, values downcast. *)
Definition drive : Body :=
  fun raw_path =>
    let* df := read_csv_index0 raw_path in
    let* depmap_annotations := read_hdf (h5_path "depmap_annotations") in
    let* k := getcol depmap_annotations "CCLE_Name" in
    let ccle_to_depmap := dict_zip k (fr_index depmap_annotations) in
    let df := set_columns df (relabel ccle_to_depmap (column_labels df)) in
    let* idx := mapM parentheses_to_snake (fr_index df) in
    let df := set_index df idx in
    let df := set_columns df (labels_astype_str (column_labels df)) in
    let df := set_index df (labels_astype_str (fr_index df)) in
    let df := transpose df in
    astype_float16 df.

Definition achilles : Body := drive.

(** [depmap_gene_tpm]: the body of [avana]. *)
Definition depmap_gene_tpm : Body :=
  fun raw_path =>
    let* df := read_csv_index0 raw_path in
    let* cols := mapM parentheses_to_snake (column_labels df) in
    let df := set_columns df cols in
    astype_float16 df.


(** [lambda x: x.replace("_", " ").capitalize()]: a value that is not a
    [str] has no [replace] method. *)
Definition display_disease_of (x : Cell) : R Cell :=
  match x with
  | CStr s => ret (CStr (py_capitalize (py_replace "_" " " s)))
  | _ => raise AttributeError
  end.

(** [lambda x: "Unknown" if x == " " else x] *)
Definition unknown_if_blank (x : Cell) : Cell :=
  if cell_eqb x (CStr " ") then CStr "Unknown" else x.

(** [depmap_annotations]: a [display_disease] column derived from
    [lineage], everything cast to [str]. *)
Definition depmap_annotations : Body :=
  fun raw_path =>
    let* df := read_csv_index0 raw_path in
    let* lineage := getcol df "lineage" in
    let* d := mapM display_disease_of lineage in
    let df := setcol df "display_disease" d in
    let* d' := getcol df "display_disease" in
    let df := setcol df "display_disease" (map unknown_if_blank d') in
    ret (astype_str df).

(** The methods of [Processors] modelled here, by name. Names that are
    not methods of the class, such as [depmap_mutations] (a TODO in
    process.py), have no entry. *)
Definition Processors : list (string * Body) :=
  [("ccle_annotations", ccle_annotations); ("ccle_rppa", ccle_rppa);
   ("avana", avana); ("drive", drive); ("achilles", achilles)].
End Process.
End Process.

(* ------------------------------------------------------------------ *)
(** ** Mutation matrices *)

(** The two fields of a row of the mutation table that the matrix is
    built from. *)
Record MutRow := mkMutRow {
  Hugo_Symbol : Cell;
  DepMap_ID : Cell
}.

Definition mutation_rows (h s : list Cell) : list MutRow :=
  imap (fun i hi => mkMutRow hi (nth i s NaN)) h.

(** [df[mask]] on the rows. *)
Definition select_rows (mask : list bool) (rows : list MutRow) : list MutRow :=
  map snd (List.filter (fun p => fst p) (combine mask rows)).

(** [MIN_COUNT_CUTOFF = 4] *)
Definition MIN_COUNT_CUTOFF : Z := 4.

(** [Counter(df["Hugo_Symbol"])[g]] *)
Definition mut_count (rows : list MutRow) (g : Cell) : Z :=
  Z.of_nat (length (List.filter (fun r => cell_eqb (Hugo_Symbol r) g) rows)).

(** [df[df["count"] >= MIN_COUNT_CUTOFF]] with [df["count"]] the count of
    each row's gene in the rows [df] holds at that point. *)
Definition count_filter (rows : list MutRow) : list MutRow :=
  List.filter (fun r => Z.leb MIN_COUNT_CUTOFF (mut_count rows (Hugo_Symbol r))) rows.

(** [df["id"] = df["Hugo_Symbol"] + "_" + df["DepMap_ID"]]: the gene, the
    sample and the id of each row (the columns hold [str]). *)
Definition with_ids (rows : list MutRow) : R (list (string * string * string)) :=
  mapM (fun r => match Hugo_Symbol r, DepMap_ID r with
                 | CStr g, CStr s => ret (g, s, g +:+ "_" +:+ s)
                 | _, _ => raise TypeError
                 end) rows.

(** [df.drop_duplicates(subset=["id"], keep="first")] *)
Fixpoint drop_duplicates_aux (seen : list string) (l : list (string * string * string))
  : list (string * string * string) :=
  match l with
  | [] => []
  | (g, s, i) :: r =>
      if existsb (String.eqb i) seen then drop_duplicates_aux seen r
      else (g, s, i) :: drop_duplicates_aux (i :: seen) r
  end.

Definition drop_duplicates (l : list (string * string * string)) :=
  drop_duplicates_aux [] l.

(** The sorted distinct labels of a pivot axis. *)
Fixpoint insert_sorted (x : string) (l : list string) : list string :=
  match l with
  | [] => [x]
  | y :: r => if String.leb x y then x :: l else y :: insert_sorted x r
  end.

Fixpoint uniq (l : list string) : list string :=
  match l with
  | [] => []
  | x :: r => if existsb (String.eqb x) r then uniq r else x :: uniq r
  end.

Definition sorted_labels (l : list string) : list string :=
  fold_right insert_sorted [] (uniq l).

(** A boolean matrix: sample rows, gene columns, values row by row. *)
Record MutMat := mkMutMat {
  mm_index : list string;
  mm_columns : list string;
  mm_values : list (list bool)
}.

(** The aggregated cell of [pd.pivot_table(df, values="value",
    index=["DepMap_ID"], columns="Hugo_Symbol", fill_value=0)]: the mean
    of the [value]s of the rows of the pair, or the fill value. *)
Definition pivot_cell (l : list (string * string * string)) (s g : string) : Q :=
  match List.filter (fun r => let '(g', s', _) := r in String.eqb s' s && String.eqb g' g) l with
  | [] => 0%Q
  | vs => (inject_Z (Z.of_nat (length vs)) / inject_Z (Z.of_nat (length vs)))%Q
  end.

(** The pivot table followed by [.astype(bool)]. *)
Definition pivot_bool (l : list (string * string * string)) : MutMat :=
  let idx := sorted_labels (map (fun r => let '(_, s, _) := r in s) l) in
  let cols := sorted_labels (map (fun r => let '(g, _, _) := r in g) l) in
  mkMutMat idx cols
    (map (fun s => map (fun g => negb (Qeq_bool (pivot_cell l s g) 0)) cols) idx).

(** The common tail of [depmap_damaging] and [depmap_hotspot], from the
    category-filtered rows to the matrix. *)
Definition mutation_matrix (rows : list MutRow) : R MutMat :=
  let rows := count_filter rows in
  let* l := with_ids rows in
  let l := drop_duplicates l in
  ret (pivot_bool l).

(** [x == "damaging"] *)
Definition is_damaging (c : Cell) : bool :=
  match c with CStr s => String.eqb s "damaging" | _ => false end.

(** [x == True] *)
Definition py_eq_True (c : Cell) : bool :=
  match c with
  | CBool b => b
  | CInt z => Z.eqb z 1
  | CFloat x => spec_float_eqb x (S754_finite false (2 ^ 52) (-52))
  | CHalf x => spec_float_eqb x (S754_finite false (2 ^ 10) (-10))
  | _ => false
  end.

(** The entry of a matrix at a sample and a gene, when both are labels. *)
Fixpoint index_of (x : string) (l : list string) : option nat :=
  match l with
  | [] => None
  | y :: r => if String.eqb x y then Some O else option_map S (index_of x r)
  end.

Definition mm_entry (m : MutMat) (s g : string) : option bool :=
  match index_of s (mm_index m), index_of g (mm_columns m) with
  | Some i, Some j => match nth_error (mm_values m) i with
                      | Some row => nth_error row j
                      | None => None
                      end
  | _, _ => None
  end.

(* ------------------------------------------------------------------ *)
(** ** [src/cancer_data/processors/depmap.py] *)

Module Depmap.
Section Depmap.
Variable PROCESSED_DIR : string.

(** Modelled from the spec: [access.Datasets.load] (not in src/), the
    load-by-id of the processed-table store, failing with a not-found
    error when no artifact is present. *)
Definition Datasets_load (id : string) : R Frame :=
  read_hdf (PROCESSED_DIR +:+ "/" +:+ id +:+ ".h5").

(** [parentheses_to_snake] imported from [utils] (not in src/): left
    abstract, any function of a label that may fail. *)
Variable utils_parentheses_to_snake : Cell -> R Cell.

(** [drive(raw_path)] (and [achilles], the same body). *)
Definition drive (raw_path : string) : R Frame :=
  let* df := read_csv_index0 raw_path in
  let* depmap_annotations := Datasets_load "depmap_annotations" in
  let* k := getcol depmap_annotations "CCLE_Name" in
  let ccle_to_depmap := dict_zip k (fr_index depmap_annotations) in
  let df := set_columns df (relabel ccle_to_depmap (column_labels df)) in
  let* idx := mapM utils_parentheses_to_snake (fr_index df) in
  let df := set_index df idx in
  let df := set_columns df (labels_astype_str (column_labels df)) in
  let df := set_index df (labels_astype_str (fr_index df)) in
  let df := transpose df in
  astype_float16 df.

Definition achilles : string -> R Frame := drive.

(** [depmap_mutations(raw_path)] *)
Definition depmap_mutations (raw_path : string) : R Frame :=
  let* df := read_csv raw_path in
  let df := astype_str df in
  let* df := col_astype_int df "Start_position" in
  let* df := col_astype_int df "End_position" in
  ret df.

(** [df = df[df["Variant_annotation"] == "damaging"]], then the gene
    and sample columns the rest of [depmap_damaging] reads. *)
Definition damaging_rows (df : Frame) : R (list MutRow) :=
  let* va := getcol df "Variant_annotation" in
  let* h := getcol df "Hugo_Symbol" in
  let* s := getcol df "DepMap_ID" in
  ret (select_rows (map is_damaging va) (mutation_rows h s)).

(** [df = df[(df["isCOSMIChotspot"] == True) | (df["isTCGAhotspot"] == True)]],
    then the gene and sample columns. *)
Definition hotspot_rows (df : Frame) : R (list MutRow) :=
  let* c := getcol df "isCOSMIChotspot" in
  let* t := getcol df "isTCGAhotspot" in
  let* h := getcol df "Hugo_Symbol" in
  let* s := getcol df "DepMap_ID" in
  ret (select_rows (map (fun p => py_eq_True (fst p) || py_eq_True (snd p)) (combine c t))
                   (mutation_rows h s)).

(** [depmap_damaging()] *)
Definition depmap_damaging : R MutMat :=
  let* df := Datasets_load "depmap_mutations" in
  let* rows := damaging_rows df in
  mutation_matrix rows.

(** [depmap_hotspot()] *)
Definition depmap_hotspot : R MutMat :=
  let* df := Datasets_load "depmap_mutations" in
  let* rows := hotspot_rows df in
  mutation_matrix rows.
End Depmap.
End Depmap.


(* ================================================================== *)
(** * Example inputs *)

Module Examples.
Definition PROCESSED_DIR : string := "processed".
Definition DOWNLOAD_DIR : string := "download".

Definition catalog : list (string * Process.Body) := Process.Processors PROCESSED_DIR.

Definition st_empty : State := mkState ∅ ∅ [].

(** A raw annotation file with one cell line, and the table read from it. *)
Definition ann_raw : RawTable :=
  mkRawTable ["CCLE_ID"; "depMapID"] [[CStr "A_LUNG"; CStr "ACH-1"]].

Definition ann_df : Frame :=
  mkFrame [CInt 0] [(CStr "CCLE_ID", [CStr "A_LUNG"]); (CStr "depMapID", [CStr "ACH-1"])].

Definition st_ann : State := mkState {[ "download/ann.csv" := ann_raw ]} ∅ [].

(** The same store after the annotations have been processed. *)
Definition st_done : State :=
  mkState {[ "download/ann.csv" := ann_raw ]} {[ "processed/ccle_annotations.h5" := ann_df ]} [].

Definition ann_file : Process.Descriptor :=
  Process.mkDescriptor "ccle_annotations" "primary_dataset" "ann.csv" CNone.

Definition rppa_file : Process.Descriptor :=
  Process.mkDescriptor "ccle_rppa" "secondary_dataset" "rppa.csv" (CStr "ccle_annotations").

Definition hotspot_file : Process.Descriptor :=
  Process.mkDescriptor "depmap_hotspot" "secondary_dataset" "hotspot.csv" (CStr "depmap_mutations").

Definition mutations_file : Process.Descriptor :=
  Process.mkDescriptor "depmap_mutations" "primary_dataset" "mutations.csv" (CStr "ccle_annotations").

(** A mutation table with the three columns the matrices read. *)
Definition mut_frame (va h smp : list string) : Frame :=
  mkFrame (range_index 0 (length h))
    [(CStr "Variant_annotation", map CStr va); (CStr "Hugo_Symbol", map CStr h);
     (CStr "DepMap_ID", map CStr smp)].

Definition mut_files (df : Frame) : Files :=
  mkFiles ∅ {[ "processed/depmap_mutations.h5" := df ]}.

(** Gene [G]: four rows, three damaging. Gene [H]: four damaging rows. *)
Definition ex1_genes : list string := ["G"; "G"; "G"; "G"; "H"; "H"; "H"; "H"].
Definition ex1_samples : list string := ["S1"; "S2"; "S3"; "S4"; "S1"; "S2"; "S3"; "S4"].
Definition ex1_df : Frame :=
  mut_frame ["damaging"; "damaging"; "damaging"; "other";
             "damaging"; "damaging"; "damaging"; "damaging"] ex1_genes ex1_samples.

Definition ex1_matrix : MutMat :=
  mkMutMat ["S1"; "S2"; "S3"; "S4"] ["H"] [[true]; [true]; [true]; [true]].

(** Genes [A] and [A_B], four damaging rows each; the pairs
    [(A_B, C)] and [(A, B_C)] have the same id [A_B_C]. *)
Definition ex7_genes : list string := ["A_B"; "A"; "A"; "A"; "A"; "A_B"; "A_B"; "A_B"].
Definition ex7_samples : list string := ["C"; "B_C"; "X"; "X"; "X"; "B_C"; "C"; "C"].
Definition ex7_df : Frame :=
  mut_frame (repeat "damaging" 8) ex7_genes ex7_samples.

Definition ex7_matrix : MutMat :=
  mkMutMat ["B_C"; "C"; "X"] ["A"; "A_B"] [[false; true]; [false; true]; [true; false]].




(** A raw mutation file. *)
Definition mutations_raw : RawTable :=
  mkRawTable ["Hugo_Symbol"; "Start_position"; "End_position"; "isTCGAhotspot"]
    [[CStr "TP53"; CInt 7675994; CInt 7675995; CBool true];
     [CStr "KRAS"; CInt 25245350; CInt 25245351; CBool false]].

Definition mutations_files : Files :=
  mkFiles {[ "download/mutations.tsv" := mutations_raw ]} ∅.
(** A raw mutation file whose four [KRAS] rows are all flagged as
    hotspots, and a store holding what [depmap_mutations] makes of it. *)
Definition hotspot_raw : RawTable :=
  mkRawTable ["Hugo_Symbol"; "DepMap_ID"; "Start_position"; "End_position";
              "isCOSMIChotspot"; "isTCGAhotspot"]
    [[CStr "KRAS"; CStr "ACH-1"; CInt 100; CInt 101; CBool true; CBool false];
     [CStr "KRAS"; CStr "ACH-2"; CInt 100; CInt 101; CBool true; CBool true];
     [CStr "KRAS"; CStr "ACH-3"; CInt 100; CInt 101; CBool false; CBool true];
     [CStr "KRAS"; CStr "ACH-4"; CInt 100; CInt 101; CBool true; CBool false]].

Definition hotspot_downloads : gmap string RawTable :=
  {[ "download/mutations.tsv" := hotspot_raw ]}.

Definition hotspot_stored : Frame :=
  match Depmap.depmap_mutations "download/mutations.tsv" (mkFiles hotspot_downloads ∅) with
  | inr df => df
  | inl _ => mkFrame [] []
  end.

Definition hotspot_files : Files :=
  mkFiles hotspot_downloads {[ "processed/depmap_mutations.h5" := hotspot_stored ]}.

(** A gene-effect file as [avana] reads it: cell lines in rows, genes
    labelled ["<symbol> (<Entrez id>)"] in columns; and the same file with
    a gene label that lacks its Entrez id. *)
Definition gene_effect_rows : list (list Cell) :=
  [[CStr "ACH-000001"; CFloat (S754_finite false 1 (-1)); CInt 0];
   [CStr "ACH-000002"; NaN; CFloat (S754_finite true 3 (-2))]].



Definition gene_effect_bad_raw : RawTable :=
  mkRawTable ["DepMap_ID"; "A1BG (1)"; "NAT2"] gene_effect_rows.

Definition gene_effect_bad_files : Files :=
  mkFiles {[ "download/gene_effect.csv" := gene_effect_bad_raw ]} ∅.








(** A cell-line annotation file, one lineage of which is a lone
    underscore; and one with a missing (NaN) lineage. *)
Definition annotations_raw : RawTable :=
  mkRawTable ["DepMap_ID"; "stripped_cell_line_name"; "lineage"]
    [[CStr "ACH-000001"; CStr "NIHOVCAR3"; CStr "ovary"];
     [CStr "ACH-000002"; CStr "HL60"; CStr "blood_MYELOID"];
     [CStr "ACH-000003"; CStr "X"; CStr "_"]].

Definition annotations_files : Files :=
  mkFiles {[ "download/sample_info.csv" := annotations_raw ]} ∅.

Definition annotations_df : Frame :=
  match Process.depmap_annotations "download/sample_info.csv" annotations_files with
  | inr df => df
  | inl _ => mkFrame [] []
  end.

Definition annotations_nan_files : Files :=
  mkFiles {[ "download/sample_info.csv" :=
    mkRawTable ["DepMap_ID"; "stripped_cell_line_name"; "lineage"]
      [[CStr "ACH-000001"; CStr "NIHOVCAR3"; CStr "ovary"];
       [CStr "ACH-000002"; CStr "HL60"; NaN]] ]} ∅.

Definition annotations_nan_read : Frame :=
  match read_csv_index0 "download/sample_info.csv" annotations_nan_files with
  | inr df => df
  | inl _ => mkFrame [] []
  end.
End Examples.


(* ================================================================== *)
(** * Properties *)

(** ** The runner *)

Section RunnerFacts.
Variables P D : string.
Variable catalog : list (string * Process.Body).

Local Abbreviation h5 := (Process.h5_path P).
Local Abbreviation run_file := (Process.run_file P D catalog).
Local Abbreviation run_schema := (Process.run_schema P D catalog).

(** The trace entries a run adds are skip messages only. *)
Definition skipped_only (evs : list Event) : Prop :=
  Forall (fun e => exists id, e = EvSkipped id) evs.

Lemma check_dependencies_state deps st u st' :
  Process.check_dependencies P deps st = Ok u st' -> st' = st.
Proof.
  unfold Process.check_dependencies.
  destruct deps as [|s|z|b|x|x]; [| | | |destruct x|destruct x]; cbn -[py_split]; intro H;
    try solve [inversion H; reflexivity].
  revert H. generalize (py_split "," s) as l. intros l.
  revert st. induction l as [|d l IH]; intros st H; cbn in H.
  - unfold retM in H. congruence.
  - unfold Process.file_exists, bindM in H.
    destruct (bool_decide _); cbn in H; [apply (IH st H) | congruence].
Qed.

(** Existing artifacts keep their content. *)
Definition grows (st st' : State) : Prop :=
  st_downloads st' = st_downloads st /\
  forall p v, st_processed st !! p = Some v -> st_processed st' !! p = Some v.

Lemma grows_refl st : grows st st.
Proof. split; auto. Qed.

Lemma grows_trans s1 s2 s3 : grows s1 s2 -> grows s2 s3 -> grows s1 s3.
Proof. intros [H1 H2] [H3 H4]. split; [congruence | auto]. Qed.

(** What one step of the loop leaves behind: artifacts only added, and
    a materializable descriptor either materialized or without transform. *)
Lemma run_file_post file st st' :
  run_file file st = Ok tt st' ->
  grows st st' /\
  (Process.materializable (Process.d_type file) = true ->
   is_Some (st_processed st' !! h5 (Process.d_id file)) \/
   Process.getattr_Processors P catalog (Process.d_id file) = None).
Proof.
  unfold Process.run_file.
  destruct (Process.materializable _) eqn:Hm; [|intros H; injection H as <-; split; [apply grows_refl | discriminate]].
  unfold bindM at 1, Process.file_exists.
  destruct (bool_decide (is_Some (st_processed st !! h5 (Process.d_id file)))) eqn:He.
  - intros H. unfold log in H. injection H as <-. split; [split; cbn; auto|].
    intros _. left. apply bool_decide_eq_true in He. exact He.
  - destruct (Process.getattr_Processors P catalog (Process.d_id file)) as [h|] eqn:Hg.
    2:{ intros H. injection H as <-. split; [apply grows_refl | auto]. }
    unfold Process.getattr_Processors in Hg.
    destruct (Process.lookup_method catalog (Process.d_id file)) as [body|]; cbn in Hg; [|discriminate].
    injection Hg as <-. intros H.
    unfold bindM at 1, log at 1 in H.
    unfold bindM at 1 in H.
    match type of H with
    | context [Process.check_dependencies P ?d ?s0] =>
        destruct (Process.check_dependencies P d s0) as [u st1|e st1] eqn:Hc; [|discriminate]
    end.
    apply check_dependencies_state in Hc. subst st1.
    cbn in H. unfold Process.exporting, lift, bindM in H.
    match type of H with
    | context [body ?r ?s0] => destruct (body r s0) as [e|df]; [discriminate|]
    end.
    cbn in H. injection H as <-.
    apply bool_decide_eq_false in He.
    split.
    + split; [reflexivity|]. cbn. intros p v Hp.
      destruct (decide (p = h5 (Process.d_id file))) as [->|Hne].
      * exfalso. apply He. rewrite Hp. eauto.
      * rewrite lookup_insert_ne; auto.
    + intros _. left. cbn. rewrite lookup_insert_eq. eauto.
Qed.

(** A descriptor the second run has nothing to do for. *)
Definition settled (st : State) (file : Process.Descriptor) : Prop :=
  Process.materializable (Process.d_type file) = true ->
  is_Some (st_processed st !! h5 (Process.d_id file)) \/
  Process.getattr_Processors P catalog (Process.d_id file) = None.

Lemma settled_grows st st' file : grows st st' -> settled st file -> settled st' file.
Proof.
  intros [_ Hg] Hs Hm. destruct (Hs Hm) as [[v Hv]|Hn]; [left; eauto | right; exact Hn].
Qed.

Lemma run_schema_post schema st st1 :
  run_schema schema st = Ok tt st1 ->
  grows st st1 /\ Forall (settled st1) schema.
Proof.
  unfold Process.run_schema. revert st.
  induction schema as [|file schema IH]; intros st H; cbn in H.
  - unfold retM in H. injection H as <-. split; [apply grows_refl | constructor].
  - unfold bindM in H. destruct (run_file file st) as [[] st2|e st2] eqn:Hf; [|discriminate].
    destruct (run_file_post file st st2 Hf) as [Hg1 Hs1].
    destruct (IH st2 H) as [Hg2 Hs2].
    split; [eapply grows_trans; eauto|].
    constructor; [|exact Hs2].
    eapply settled_grows; [exact Hg2|exact Hs1].
Qed.

Lemma run_file_exists file st :
  Process.materializable (Process.d_type file) = true ->
  is_Some (st_processed st !! h5 (Process.d_id file)) ->
  run_file file st =
    Ok tt (mkState (st_downloads st) (st_processed st) (EvSkipped (Process.d_id file) :: st_trace st)).
Proof.
  intros Hm He. unfold Process.run_file. rewrite Hm.
  unfold bindM, Process.file_exists. rewrite bool_decide_eq_true_2 by exact He.
  reflexivity.
Qed.

Lemma run_file_settled file st :
  settled st file ->
  exists evs, run_file file st =
    Ok tt (mkState (st_downloads st) (st_processed st) (evs ++ st_trace st)) /\ skipped_only evs.
Proof.
  intros Hs. destruct (Process.materializable (Process.d_type file)) eqn:Hm.
  - destruct (decide (is_Some (st_processed st !! h5 (Process.d_id file)))) as [He|He].
    + exists [EvSkipped (Process.d_id file)]. split.
      * rewrite run_file_exists by assumption. reflexivity.
      * repeat constructor. eauto.
    + destruct (Hs Hm) as [He'|Hn]; [contradiction|].
      exists []. split; [|constructor].
      unfold Process.run_file. rewrite Hm. unfold bindM, Process.file_exists.
      rewrite bool_decide_eq_false_2 by exact He. rewrite Hn. destruct st; reflexivity.
  - exists []. split; [|constructor].
    unfold Process.run_file. rewrite Hm. destruct st; reflexivity.
Qed.

Lemma run_schema_settled schema st :
  Forall (settled st) schema ->
  exists evs, run_schema schema st =
    Ok tt (mkState (st_downloads st) (st_processed st) (evs ++ st_trace st)) /\ skipped_only evs.
Proof.
  unfold Process.run_schema. revert st.
  induction schema as [|file schema IH]; intros st Hs.
  - exists []. split; [destruct st; reflexivity | constructor].
  - inversion Hs as [|? ? Hf Hr]; subst.
    destruct (run_file_settled file st Hf) as [evs1 [E1 S1]].
    cbn. unfold bindM. rewrite E1.
    destruct (IH (mkState (st_downloads st) (st_processed st) (evs1 ++ st_trace st))) as [evs2 [E2 S2]].
    { eapply Forall_impl; [exact Hr|]. intros f Hsf Hm. exact (Hsf Hm). }
    exists (app evs2 evs1). rewrite E2. cbn. rewrite app_assoc. split; [reflexivity|].
    apply Forall_app; split; assumption.
Qed.

Definition dep_present (st : State) (d : string) : Prop :=
  is_Some (st_processed st !! h5 d).

Lemma bind_file_exists_present {A} path (k : bool -> M A) st :
  is_Some (st_processed st !! path) -> bindM (Process.file_exists path) k st = k true st.
Proof. intros H. unfold bindM, Process.file_exists. rewrite bool_decide_eq_true_2 by exact H. reflexivity. Qed.

Lemma bind_file_exists_absent {A} path (k : bool -> M A) st :
  st_processed st !! path = None -> bindM (Process.file_exists path) k st = k false st.
Proof.
  intros H. unfold bindM, Process.file_exists.
  rewrite bool_decide_eq_false_2 by (rewrite H; intros [? ?]; discriminate). reflexivity.
Qed.

Lemma check_dependencies_present s st :
  Forall (dep_present st) (py_split "," s) ->
  Process.check_dependencies P (CStr s) st = Ok tt st.
Proof.
  unfold Process.check_dependencies. cbn -[py_split].
  generalize (py_split "," s) as l. intros l Hl.
  induction Hl as [|d l Hd Hl IH]; [reflexivity|].
  cbn [iterM]. unfold bindM at 1. rewrite bind_file_exists_present by exact Hd. exact IH.
Qed.

Lemma check_dependencies_first_missing s pre d post st :
  py_split "," s = app pre (d :: post) ->
  Forall (dep_present st) pre ->
  st_processed st !! h5 d = None ->
  Process.check_dependencies P (CStr s) st =
    Raise (AssertionError (Process.dependency_message d)) st.
Proof.
  intros Hs Hpre Hd. unfold Process.check_dependencies. cbn -[py_split]. rewrite Hs. clear Hs.
  induction Hpre as [|x l Hx Hl IH]; cbn [iterM app].
  - unfold bindM at 1. rewrite bind_file_exists_absent by exact Hd. reflexivity.
  - unfold bindM at 1. rewrite bind_file_exists_present by exact Hx. exact IH.
Qed.

Lemma split_first_missing st (l : list string) d :
  In d l -> st_processed st !! h5 d = None ->
  exists pre d' post, l = app pre (d' :: post) /\ Forall (dep_present st) pre /\
                      st_processed st !! h5 d' = None.
Proof.
  induction l as [|x l IH]; [intros []|].
  intros Hin Hd.
  destruct (st_processed st !! h5 x) as [v|] eqn:Hx.
  - destruct Hin as [->|Hin]; [congruence|].
    destruct (IH Hin Hd) as (pre & d' & post & -> & Hp & Hd').
    exists (x :: pre), d', post. split; [reflexivity|]. split; [|exact Hd'].
    constructor; [unfold dep_present; rewrite Hx; eauto | exact Hp].
  - exists [], x, l. split; [reflexivity|]. split; [constructor | exact Hx].
Qed.

(** The dispatch of a descriptor whose dependencies are satisfied. *)
Lemma run_file_dispatch file st body df :
  Process.materializable (Process.d_type file) = true ->
  st_processed st !! h5 (Process.d_id file) = None ->
  Process.lookup_method catalog (Process.d_id file) = Some body ->
  (forall st', st_processed st' = st_processed st ->
     Process.check_dependencies P (Process.d_dependencies file) st' = Ok tt st') ->
  body (D +:+ "/" +:+ Process.d_downloaded_name file) (files st) = inr df ->
  run_file file st =
    Ok tt (mkState (st_downloads st) (<[h5 (Process.d_id file) := df]> (st_processed st))
             (EvCall (Process.d_id file) (D +:+ "/" +:+ Process.d_downloaded_name file)
                     (Process.d_id file)
              :: EvProcessing (Process.d_id file) :: st_trace st)).
Proof.
  intros Hm Ha Hl Hc Hb. unfold Process.run_file. rewrite Hm.
  rewrite bind_file_exists_absent by exact Ha.
  unfold Process.getattr_Processors. rewrite Hl. cbn.
  unfold bindM at 1. rewrite Hc by reflexivity. cbn.
  unfold bindM, Process.exporting, bindM, lift, files. cbn -[String.append]. unfold files in Hb. rewrite Hb. reflexivity.
Qed.

(** C4: the runner skips a descriptor whose artifact exists, without a
    call and without a write; hence a run that completes leaves nothing
    for a second run to do: the second run records only skip messages and
    changes no file. *)
Theorem runner_idempotent :
  (forall file st,
     Process.materializable (Process.d_type file) = true ->
     is_Some (st_processed st !! h5 (Process.d_id file)) ->
     run_file file st =
       Ok tt (mkState (st_downloads st) (st_processed st)
                      (EvSkipped (Process.d_id file) :: st_trace st))) /\
  (forall schema st st1,
     run_schema schema st = Ok tt st1 ->
     exists evs, run_schema schema st1 =
       Ok tt (mkState (st_downloads st1) (st_processed st1) (evs ++ st_trace st1)) /\
       skipped_only evs).
Proof.
  split.
  - exact run_file_exists.
  - intros schema st st1 H.
    destruct (run_schema_post schema st st1 H) as [_ Hs].
    exact (run_schema_settled schema st1 Hs).
Qed.

(** C2 (amended): for a materializable descriptor whose artifact is
    absent and whose dependency [d] is the first missing one: when the
    transform exists, the whole run aborts with an assertion naming [d],
    the transform is not called and no artifact is written; when there
    is no transform, the descriptor is skipped without any dependency
    check and the run goes on with the rest of the schema. *)
Theorem run_schema_missing_dependency file rest st s pre d post :
  Process.materializable (Process.d_type file) = true ->
  st_processed st !! h5 (Process.d_id file) = None ->
  Process.d_dependencies file = CStr s ->
  py_split "," s = app pre (d :: post) ->
  Forall (dep_present st) pre ->
  st_processed st !! h5 d = None ->
  (is_Some (Process.getattr_Processors P catalog (Process.d_id file)) ->
   run_schema (file :: rest) st =
     Raise (AssertionError (Process.dependency_message d))
           (mkState (st_downloads st) (st_processed st)
                    (EvProcessing (Process.d_id file) :: st_trace st))) /\
  (Process.getattr_Processors P catalog (Process.d_id file) = None ->
   run_schema (file :: rest) st = run_schema rest st).
Proof.
  intros Hm Ha Hd Hs Hpre Hmiss. split.
  - intros [h Hh].
    unfold Process.run_schema. cbn. unfold bindM at 1.
    unfold Process.run_file. rewrite Hm.
    rewrite bind_file_exists_absent by exact Ha.
    rewrite Hh. cbn. unfold bindM at 1. rewrite Hd.
    rewrite (check_dependencies_first_missing s pre d post) by (cbn; assumption).
    reflexivity.
  - intros Hg.
    unfold Process.run_schema. cbn. unfold bindM at 1.
    unfold Process.run_file. rewrite Hm.
    rewrite bind_file_exists_absent by exact Ha.
    rewrite Hg. reflexivity.
Qed.

(** C3 (amended): the transform is resolved before the dependencies are
    checked. For a descriptor with a missing dependency, the runner raises
    an assertion error naming a missing dependency of the descriptor
    exactly when a transform with its id exists; without one it skips the
    descriptor and changes nothing. *)
Theorem run_file_resolves_before_checking file st s d :
  Process.materializable (Process.d_type file) = true ->
  st_processed st !! h5 (Process.d_id file) = None ->
  Process.d_dependencies file = CStr s ->
  In d (py_split "," s) ->
  st_processed st !! h5 d = None ->
  ((exists d' st', run_file file st = Raise (AssertionError (Process.dependency_message d')) st' /\
                   In d' (py_split "," s) /\ st_processed st !! h5 d' = None) <->
   is_Some (Process.getattr_Processors P catalog (Process.d_id file))) /\
  (Process.getattr_Processors P catalog (Process.d_id file) = None ->
   run_file file st = Ok tt st).
Proof.
  intros Hm Ha Hd Hin Hmiss.
  assert (Hn : Process.getattr_Processors P catalog (Process.d_id file) = None ->
               run_file file st = Ok tt st).
  { intros Hg. unfold Process.run_file. rewrite Hm.
    rewrite bind_file_exists_absent by exact Ha.
    rewrite Hg. reflexivity. }
  split; [|exact Hn]. split.
  - intros (e & st' & H & _).
    destruct (Process.getattr_Processors P catalog (Process.d_id file)) eqn:Hg; [eauto|].
    rewrite (Hn eq_refl) in H. discriminate.
  - intros [h Hh].
    destruct (split_first_missing st (py_split "," s) d Hin Hmiss) as (pre & d' & post & Hs & Hp & Hd').
    exists d'.
    exists (mkState (st_downloads st) (st_processed st) (EvProcessing (Process.d_id file) :: st_trace st)).
    split; [|split; [rewrite Hs; apply in_or_app; right; left; reflexivity | exact Hd']].
    unfold Process.run_file. rewrite Hm.
    rewrite bind_file_exists_absent by exact Ha.
    rewrite Hh. cbn. unfold bindM at 1. rewrite Hd.
    rewrite (check_dependencies_first_missing s pre d' post) by (cbn; assumption).
    reflexivity.
Qed.

(** C5 (amended): the runner calls the transform with the raw download
    path and the dataset id and ignores what it returns; the transform
    itself persists the table it computes under the dataset id, through
    [export_hdf], and returns [None]. *)
Theorem transform_persists_and_returns_None file st body df :
  Process.materializable (Process.d_type file) = true ->
  st_processed st !! h5 (Process.d_id file) = None ->
  Process.lookup_method catalog (Process.d_id file) = Some body ->
  (forall st', st_processed st' = st_processed st ->
     Process.check_dependencies P (Process.d_dependencies file) st' = Ok tt st') ->
  body (D +:+ "/" +:+ Process.d_downloaded_name file) (files st) = inr df ->
  run_file file st =
    Ok tt (mkState (st_downloads st) (<[h5 (Process.d_id file) := df]> (st_processed st))
             (EvCall (Process.d_id file) (D +:+ "/" +:+ Process.d_downloaded_name file)
                     (Process.d_id file)
              :: EvProcessing (Process.d_id file) :: st_trace st)) /\
  exists handler,
    Process.getattr_Processors P catalog (Process.d_id file) = Some handler /\
    forall st', files st' = files st ->
      handler (D +:+ "/" +:+ Process.d_downloaded_name file) (Process.d_id file) st' =
        Ok RetNone (mkState (st_downloads st')
                            (<[h5 (Process.d_id file) := df]> (st_processed st'))
                            (st_trace st')).
Proof.
  intros Hm Ha Hl Hc Hb. split; [exact (run_file_dispatch file st body df Hm Ha Hl Hc Hb)|].
  exists (Process.exporting P body). split.
  - unfold Process.getattr_Processors. rewrite Hl. reflexivity.
  - intros st' Hf. unfold Process.exporting, bindM, lift. rewrite Hf, Hb. reflexivity.
Qed.

(** C6: an empty or missing dependency list means no dependencies. Such
    a field reaches the code as [None] or as [NaN] (pandas reads an empty
    cell of the schema table as [NaN]): [check_dependencies] checks
    nothing and returns, and the runner goes on to call the transform. *)
Theorem missing_dependencies_dispatch file st body df :
  (Process.d_dependencies file = CNone \/ py_ne_self (Process.d_dependencies file) = true) ->
  (forall st', Process.check_dependencies P (Process.d_dependencies file) st' = Ok tt st') /\
  (Process.materializable (Process.d_type file) = true ->
   st_processed st !! h5 (Process.d_id file) = None ->
   Process.lookup_method catalog (Process.d_id file) = Some body ->
   body (D +:+ "/" +:+ Process.d_downloaded_name file) (files st) = inr df ->
   run_file file st =
     Ok tt (mkState (st_downloads st) (<[h5 (Process.d_id file) := df]> (st_processed st))
              (EvCall (Process.d_id file) (D +:+ "/" +:+ Process.d_downloaded_name file)
                      (Process.d_id file)
               :: EvProcessing (Process.d_id file) :: st_trace st))).
Proof.
  intros Hd.
  assert (Hc : forall st', Process.check_dependencies P (Process.d_dependencies file) st' = Ok tt st').
  { intros st'. unfold Process.check_dependencies.
    destruct Hd as [-> | Hn]; [reflexivity|].
    destruct (Process.d_dependencies file); [reflexivity| | | | |]; rewrite Hn; reflexivity. }
  split; [exact Hc|].
  intros Hm Ha Hl Hb. exact (run_file_dispatch file st body df Hm Ha Hl (fun st' _ => Hc st') Hb).
Qed.
End RunnerFacts.

(** ** The runner on concrete inputs *)

Module RunnerExamples.
Import Examples.

(** C2: the transform of [depmap_hotspot] is not a method of [Processors];
  its dependency [depmap_mutations] is missing, yet the run completes
  without an assertion. *)
Lemma missing_dependency_without_transform :
Process.run_schema PROCESSED_DIR DOWNLOAD_DIR catalog [hotspot_file] st_empty = Ok tt st_empty.
Proof. vm_compute. reflexivity. Qed.

Lemma run_schema_missing_dependency_witness :
Process.run_schema PROCESSED_DIR DOWNLOAD_DIR catalog [rppa_file] st_empty =
  Raise (AssertionError (Process.dependency_message "ccle_annotations"))
        (mkState ∅ ∅ [EvProcessing "ccle_rppa"]).
Proof.
pose proof (run_schema_missing_dependency PROCESSED_DIR DOWNLOAD_DIR catalog rppa_file [] st_empty
              "ccle_annotations" [] "ccle_annotations" []) as H.
specialize (H ltac:(vm_compute; reflexivity)).
specialize (H ltac:(vm_compute; reflexivity)).
specialize (H ltac:(vm_compute; reflexivity)).
specialize (H ltac:(reflexivity)).
specialize (H ltac:(constructor)).
specialize (H ltac:(vm_compute; reflexivity)).
exact (proj1 H ltac:(vm_compute; eexists; reflexivity)).
Defined.

(** C3: with the dependency [ccle_annotations] missing and no transform for
  [depmap_mutations], the runner does not fail: it moves on. *)
Lemma missing_dependency_skipped_silently :
Process.run_file PROCESSED_DIR DOWNLOAD_DIR catalog mutations_file st_empty = Ok tt st_empty /\
st_processed st_empty !! Process.h5_path PROCESSED_DIR "ccle_annotations" = None.
Proof. split; vm_compute; reflexivity. Qed.

Lemma run_file_resolves_before_checking_witness :
((exists d' st', Process.run_file PROCESSED_DIR DOWNLOAD_DIR catalog rppa_file st_empty =
                   Raise (AssertionError (Process.dependency_message d')) st' /\
                 In d' (py_split "," "ccle_annotations") /\
                 st_processed st_empty !! Process.h5_path PROCESSED_DIR d' = None) <->
 is_Some (Process.getattr_Processors PROCESSED_DIR catalog "ccle_rppa")) /\
(Process.getattr_Processors PROCESSED_DIR catalog "ccle_rppa" = None ->
 Process.run_file PROCESSED_DIR DOWNLOAD_DIR catalog rppa_file st_empty = Ok tt st_empty).
Proof.
pose proof (run_file_resolves_before_checking PROCESSED_DIR DOWNLOAD_DIR catalog rppa_file st_empty
              "ccle_annotations" "ccle_annotations") as H.
specialize (H ltac:(vm_compute; reflexivity)).
specialize (H ltac:(vm_compute; reflexivity)).
specialize (H ltac:(reflexivity)).
specialize (H ltac:(vm_compute; left; reflexivity)).
specialize (H ltac:(vm_compute; reflexivity)).
exact H.
Defined.

Lemma runner_idempotent_witness :
Process.run_file PROCESSED_DIR DOWNLOAD_DIR catalog ann_file st_done =
  Ok tt (mkState (st_downloads st_done) (st_processed st_done) [EvSkipped "ccle_annotations"]).
Proof.
apply (proj1 (runner_idempotent PROCESSED_DIR DOWNLOAD_DIR catalog) ann_file st_done);
  [vm_compute; reflexivity | vm_compute; eexists; reflexivity].
Defined.

(** C5: the handler the runner calls for [ccle_annotations] returns [None];
  the table it computed is in the store, written by the handler. *)
Lemma ccle_annotations_handler_returns_None :
Process.getattr_Processors PROCESSED_DIR catalog "ccle_annotations" =
  Some (Process.exporting PROCESSED_DIR Process.ccle_annotations) /\
Process.exporting PROCESSED_DIR Process.ccle_annotations "download/ann.csv" "ccle_annotations" st_ann =
  Ok RetNone (mkState (st_downloads st_ann) {[ "processed/ccle_annotations.h5" := ann_df ]} []).
Proof. split; [reflexivity | vm_compute; reflexivity]. Qed.

Lemma transform_persists_and_returns_None_witness :
Process.run_file PROCESSED_DIR DOWNLOAD_DIR catalog ann_file st_ann =
  Ok tt (mkState (st_downloads st_ann)
           (<[Process.h5_path PROCESSED_DIR "ccle_annotations" := ann_df]> (st_processed st_ann))
           [EvCall "ccle_annotations" (DOWNLOAD_DIR +:+ "/" +:+ "ann.csv") "ccle_annotations";
            EvProcessing "ccle_annotations"]) /\
exists handler,
  Process.getattr_Processors PROCESSED_DIR catalog "ccle_annotations" = Some handler /\
  forall st', files st' = files st_ann ->
    handler (DOWNLOAD_DIR +:+ "/" +:+ "ann.csv") "ccle_annotations" st' =
      Ok RetNone (mkState (st_downloads st')
                          (<[Process.h5_path PROCESSED_DIR "ccle_annotations" := ann_df]>
                             (st_processed st'))
                          (st_trace st')).
Proof.
apply (transform_persists_and_returns_None PROCESSED_DIR DOWNLOAD_DIR catalog ann_file st_ann
         Process.ccle_annotations ann_df);
  [vm_compute; reflexivity | vm_compute; reflexivity | reflexivity | intros st' _; reflexivity | vm_compute; reflexivity].
Defined.

Lemma missing_dependencies_dispatch_witness :
Process.check_dependencies PROCESSED_DIR CNone st_ann = Ok tt st_ann /\
Process.run_file PROCESSED_DIR DOWNLOAD_DIR catalog ann_file st_ann =
  Ok tt (mkState (st_downloads st_ann)
           (<[Process.h5_path PROCESSED_DIR "ccle_annotations" := ann_df]> (st_processed st_ann))
           [EvCall "ccle_annotations" (DOWNLOAD_DIR +:+ "/" +:+ "ann.csv") "ccle_annotations";
            EvProcessing "ccle_annotations"]).
Proof.
destruct (missing_dependencies_dispatch PROCESSED_DIR DOWNLOAD_DIR catalog ann_file st_ann
            Process.ccle_annotations ann_df (or_introl eq_refl)) as [H1 H2].
split; [exact (H1 st_ann)|].
specialize (H2 ltac:(vm_compute; reflexivity)).
specialize (H2 ltac:(vm_compute; reflexivity)).
specialize (H2 ltac:(reflexivity)).
specialize (H2 ltac:(vm_compute; reflexivity)).
exact H2.
Defined.
End RunnerExamples.

(* ------------------------------------------------------------------ *)
(** ** Tables *)

Lemma bind_inr {A B} (m : R A) (k : A -> R B) fs b :
  bind m k fs = inr b -> exists a, m fs = inr a /\ k a fs = inr b.
Proof. unfold bind. destruct (m fs) as [e|a]; [discriminate | eauto]. Qed.


Ltac inv_bind H :=
  let a := fresh "a" in let Ha := fresh "Ha" in let Hk := fresh "Hk" in
  apply bind_inr in H; destruct H as (a & Ha & Hk).

Lemma mapM_inr {A B} (f : A -> R B) (l : list A) fs ys :
  mapM f l fs = inr ys -> Forall2 (fun x y => f x fs = inr y) l ys.
Proof.
  revert ys. induction l as [|x l IH]; intros ys H; cbn in H.
  - injection H as <-. constructor.
  - inv_bind H. inv_bind Hk. injection Hk0 as <-. constructor; [exact Ha | exact (IH _ Ha0)].
Qed.

Lemma Forall2_In_right {A B} (Q : A -> B -> Prop) l1 l2 y :
  Forall2 Q l1 l2 -> In y l2 -> exists x, In x l1 /\ Q x y.
Proof.
  induction 1 as [|x y' l1 l2 Hxy _ IH]; [intros []|].
  intros [<-|Hin]; [exists x; split; [left|]; auto|].
  destruct (IH Hin) as (x' & ? & ?). exists x'. split; [right|]; auto.
Qed.

(** *** The minimum-count filter *)

Lemma with_ids_inr rows fs l :
  with_ids rows fs = inr l ->
  Forall2 (fun r t => exists g smp, Hugo_Symbol r = CStr g /\ DepMap_ID r = CStr smp /\
                                    t = (g, smp, g +:+ "_" +:+ smp)) rows l.
Proof.
  intros H. apply mapM_inr in H. eapply Forall2_impl; [exact H|].
  intros [[] []] t Ht; cbn in Ht; try discriminate.
  injection Ht as <-. cbn. eauto.
Qed.

Lemma drop_duplicates_aux_incl seen (l : list (string * string * string)) t :
  In t (drop_duplicates_aux seen l) -> In t l.
Proof.
  revert seen. induction l as [|[[g smp] i] l IH]; intros seen; cbn; [tauto|].
  destruct (existsb (String.eqb i) seen).
  - intros H. right. exact (IH _ H).
  - intros [H|H]; [left; exact H | right; exact (IH _ H)].
Qed.

Lemma In_uniq x (l : list string) : In x (uniq l) <-> In x l.
Proof.
  induction l as [|y l IH]; cbn; [tauto|].
  destruct (existsb (String.eqb y) l) eqn:E.
  - rewrite IH. split; [tauto|]. intros [<-|H]; [|exact H].
    apply existsb_exists in E. destruct E as (z & Hz & Ez).
    apply String.eqb_eq in Ez. subst z. exact Hz.
  - cbn. rewrite IH. tauto.
Qed.

Lemma In_insert_sorted x y (l : list string) : In x (insert_sorted y l) <-> x = y \/ In x l.
Proof.
  induction l as [|z l IH]; cbn; [intuition congruence|].
  destruct (String.leb y z); cbn; [intuition congruence|].
  rewrite IH. intuition congruence.
Qed.

Lemma In_sorted_labels x (l : list string) : In x (sorted_labels l) <-> In x l.
Proof.
  unfold sorted_labels. rewrite <- (In_uniq x l).
  induction (uniq l) as [|y r IH]; cbn; [tauto|].
  rewrite In_insert_sorted, IH. intuition congruence.
Qed.

Lemma count_filter_min rows r :
  In r (count_filter rows) -> MIN_COUNT_CUTOFF <= mut_count rows (Hugo_Symbol r).
Proof.
  unfold count_filter. rewrite List.filter_In. intros [_ H]. apply Z.leb_le. exact H.
Qed.

(** Every gene column of the matrix is the gene of a kept row. *)
Lemma mutation_matrix_columns rows fs m g :
  mutation_matrix rows fs = inr m -> In g (mm_columns m) ->
  MIN_COUNT_CUTOFF <= mut_count rows (CStr g).
Proof.
  unfold mutation_matrix. intros H. inv_bind H. injection Hk as <-.
  cbn. rewrite In_sorted_labels, in_map_iff. intros ([[g' smp] i] & Eg & Ht). cbn in Eg. subst g'.
  apply drop_duplicates_aux_incl in Ht.
  apply with_ids_inr in Ha.
  destruct (Forall2_In_right _ _ _ _ Ha Ht) as (r & Hr & g' & smp' & Hg & _ & Et).
  injection Et as -> -> _.
  rewrite <- Hg. exact (count_filter_min rows r Hr).
Qed.

(** C1 (amended): the per-gene count is taken on the rows left by the
    category filter ([Variant_annotation == "damaging"], or one of the two
    hotspot flags equal to [True]), not on the whole mutation table; a gene
    is a column of the matrix only if it has at least [MIN_COUNT_CUTOFF = 4]
    of those rows. *)
Theorem mutation_matrix_min_count P fs m :
  (Depmap.depmap_damaging P fs = inr m ->
   exists df rows, Depmap.Datasets_load P "depmap_mutations" fs = inr df /\
     Depmap.damaging_rows df fs = inr rows /\
     forall g, In g (mm_columns m) -> MIN_COUNT_CUTOFF <= mut_count rows (CStr g)) /\
  (Depmap.depmap_hotspot P fs = inr m ->
   exists df rows, Depmap.Datasets_load P "depmap_mutations" fs = inr df /\
     Depmap.hotspot_rows df fs = inr rows /\
     forall g, In g (mm_columns m) -> MIN_COUNT_CUTOFF <= mut_count rows (CStr g)).
Proof.
  split; intros H; unfold Depmap.depmap_damaging, Depmap.depmap_hotspot in H;
    inv_bind H; inv_bind Hk; exists a, a0; (split; [exact Ha|]); (split; [exact Ha0|]);
    intros g Hg; exact (mutation_matrix_columns a0 fs m g Hk0 Hg).
Qed.

(** *** Deduplication by the concatenated id *)

(** C7: the rows are deduplicated on the string [gene + "_" + sample],
    not on the pair: the pair [(A, B_C)] of the input shares its id
    [A_B_C] with the earlier row [(A_B, C)], is dropped, and is [False] in
    the matrix although it is present in the rows that pass the filters. *)
Theorem dedup_key_collision :
  In (mkMutRow (CStr "A") (CStr "B_C"))
     (count_filter (mutation_rows (map CStr Examples.ex7_genes) (map CStr Examples.ex7_samples))) /\
  Depmap.depmap_damaging Examples.PROCESSED_DIR (Examples.mut_files Examples.ex7_df) =
    inr Examples.ex7_matrix /\
  mm_entry Examples.ex7_matrix "B_C" "A" = Some false.
Proof. split; [|split]; vm_compute; [right; left; reflexivity | reflexivity | reflexivity]. Qed.

(** *** The column types of [depmap_mutations] *)




Lemma cell_eqb_CStr c n : cell_eqb c (CStr n) = true <-> c = CStr n.
Proof.
  destruct c; cbn; split; try discriminate; intros H.
  - apply String.eqb_eq in H. congruence.
  - injection H as ->. apply String.eqb_refl.
Qed.



(** *** Relabelling through lookup maps *)







(** ** The tables on concrete inputs *)

Module TableExamples.
Import Examples.

(** C1: gene [G] has four rows in the whole mutation table, three of them
  damaging; counted on the whole table it would pass the threshold, but
  it is not a column of the matrix. *)
Lemma count_taken_after_category_filter :
mut_count (mutation_rows (map CStr ex1_genes) (map CStr ex1_samples)) (CStr "G") = 4 /\
Depmap.depmap_damaging PROCESSED_DIR (mut_files ex1_df) = inr ex1_matrix /\
~ In "G" (mm_columns ex1_matrix).
Proof.
split; [vm_compute; reflexivity|]. split; [vm_compute; reflexivity|].
cbn. intros [H|[]]. discriminate.
Qed.

Lemma mutation_matrix_min_count_witness :
exists df rows,
  Depmap.Datasets_load PROCESSED_DIR "depmap_mutations" (mut_files ex1_df) = inr df /\
  Depmap.damaging_rows df (mut_files ex1_df) = inr rows /\
  forall g, In g (mm_columns ex1_matrix) -> MIN_COUNT_CUTOFF <= mut_count rows (CStr g).
Proof.
pose proof (mutation_matrix_min_count PROCESSED_DIR (mut_files ex1_df) ex1_matrix) as [H _].
specialize (H ltac:(vm_compute; reflexivity)).
exact H.
Defined.



End TableExamples.

(* ------------------------------------------------------------------ *)
(** ** Further properties of the mutation matrices *)


Section MatrixFacts.

Lemma index_of_Some x l i : index_of x l = Some i -> nth_error l i = Some x.
Proof.
revert i. induction l as [|y l IH]; intros i; cbn; [discriminate|].
destruct (String.eqb x y) eqn:E.
- intros H. injection H as <-. apply String.eqb_eq in E. subst. reflexivity.
- destruct (index_of x l) as [j|]; cbn; [|discriminate].
  intros H. injection H as <-. exact (IH j eq_refl).
Qed.

Lemma index_of_In x l : In x l -> exists i, index_of x l = Some i.
Proof.
induction l as [|y l IH]; cbn; [tauto|].
destruct (String.eqb x y) eqn:E; [eauto|].
intros [<-|H]; [rewrite String.eqb_refl in E; discriminate|].
destruct (IH H) as (i & ->). cbn. eauto.
Qed.

Lemma index_of_None x l : ~ In x l -> index_of x l = None.
Proof.
intros Hn. destruct (index_of x l) as [i|] eqn:E; [|reflexivity].
exfalso. apply Hn. apply index_of_Some in E. exact (nth_error_In _ _ E).
Qed.

Lemma pivot_cell_nonzero l s g :
  negb (Qeq_bool (pivot_cell l s g) 0) =
  existsb (fun r => let '(g', s', _) := r in String.eqb s' s && String.eqb g' g) l.
Proof.
unfold pivot_cell.
destruct (List.filter (fun r => let '(g', s', _) := r in String.eqb s' s && String.eqb g' g) l)
  as [|v vs] eqn:E.
- cbn. symmetry. apply not_true_iff_false. intros Hx.
  apply existsb_exists in Hx. destruct Hx as (r & Hr & Hf).
  assert (Hin : In r (List.filter (fun r => let '(g', s', _) := r in String.eqb s' s && String.eqb g' g) l))
    by (apply List.filter_In; auto).
  rewrite E in Hin. destruct Hin.
- assert (Hv : In v (List.filter (fun r => let '(g', s', _) := r in String.eqb s' s && String.eqb g' g) l))
    by (rewrite E; left; reflexivity).
  apply List.filter_In in Hv. destruct Hv as [Hv Hf].
  assert (Hex : existsb (fun r => let '(g', s', _) := r in String.eqb s' s && String.eqb g' g) l = true)
    by (apply existsb_exists; eauto).
  rewrite Hex.
  set (x := inject_Z (Z.of_nat (length (v :: vs)))).
  destruct (Qeq_bool (x / x) 0) eqn:Q; [|reflexivity]. exfalso.
  apply Qeq_bool_iff in Q.
  assert (Hx : ~ (x == 0)%Q) by (unfold x, Qeq, inject_Z; cbn [length Qnum Qden]; lia).
  pose proof (Qmult_inv_r x Hx) as H1. unfold Qdiv in Q.
  pose proof (Qeq_trans _ _ _ (Qeq_sym _ _ Q) H1) as H01. discriminate H01.
Qed.

Lemma In_samples s (l : list (string * string * string)) :
  In s (map (fun r => let '(_, s, _) := r in s) l) <-> exists g i, In (g, s, i) l.
Proof.
rewrite in_map_iff. split.
- intros ([[g s'] i] & <- & H). eauto.
- intros (g & i & H). exists (g, s, i). auto.
Qed.

Lemma In_genes g (l : list (string * string * string)) :
  In g (map (fun r => let '(g, _, _) := r in g) l) <-> exists s i, In (g, s, i) l.
Proof.
rewrite in_map_iff. split.
- intros ([[g' s] i] & <- & H). eauto.
- intros (s & i & H). exists (g, s, i). auto.
Qed.

Lemma pivot_bool_entry_in l s g :
  In s (map (fun r => let '(_, s, _) := r in s) l) ->
  In g (map (fun r => let '(g, _, _) := r in g) l) ->
  mm_entry (pivot_bool l) s g =
    Some (existsb (fun r => let '(g', s', _) := r in String.eqb s' s && String.eqb g' g) l).
Proof.
intros Hs Hg. unfold mm_entry, pivot_bool. cbn [mm_index mm_columns mm_values].
rewrite <- In_sorted_labels in Hs, Hg.
destruct (index_of_In _ _ Hs) as (i & Hi). destruct (index_of_In _ _ Hg) as (j & Hj).
rewrite Hi, Hj, nth_error_map, (index_of_Some _ _ _ Hi). cbn.
rewrite nth_error_map, (index_of_Some _ _ _ Hj). cbn.
rewrite pivot_cell_nonzero. reflexivity.
Qed.

Lemma pivot_bool_entry_out l s g :
  ~ In s (map (fun r => let '(_, s, _) := r in s) l) \/
  ~ In g (map (fun r => let '(g, _, _) := r in g) l) ->
  mm_entry (pivot_bool l) s g = None.
Proof.
intros H. unfold mm_entry, pivot_bool. cbn [mm_index mm_columns mm_values].
destruct H as [H|H]; rewrite <- In_sorted_labels in H; rewrite (index_of_None _ _ H);
  [reflexivity|]. destruct (index_of s _); reflexivity.
Qed.

Lemma pivot_bool_true l s g :
  mm_entry (pivot_bool l) s g = Some true <-> exists i, In (g, s, i) l.
Proof.
split.
- destruct (in_dec String.string_dec s (map (fun r => let '(_, s, _) := r in s) l)) as [Hs|Hs];
  [destruct (in_dec String.string_dec g (map (fun r => let '(g, _, _) := r in g) l)) as [Hg|Hg]|].
  + rewrite (pivot_bool_entry_in l s g Hs Hg). intros H. injection H as H.
    apply existsb_exists in H. destruct H as ([[g' s'] i] & Hr & Hf).
    apply andb_true_iff in Hf. destruct Hf as [E1 E2].
    apply String.eqb_eq in E1, E2. subst. eauto.
  + rewrite pivot_bool_entry_out by tauto. discriminate.
  + rewrite pivot_bool_entry_out by tauto. discriminate.
- intros (i & H).
  rewrite pivot_bool_entry_in by (first [apply In_samples | apply In_genes]; eauto).
  f_equal. apply existsb_exists. exists (g, s, i). split; [exact H|].
  rewrite !String.eqb_refl. reflexivity.
Qed.

Lemma pivot_bool_false l s g :
  mm_entry (pivot_bool l) s g = Some false <->
  (exists g' i, In (g', s, i) l) /\ (exists s' i, In (g, s', i) l) /\ ~ exists i, In (g, s, i) l.
Proof.
rewrite <- In_samples, <- In_genes, <- pivot_bool_true. split.
- destruct (in_dec String.string_dec s (map (fun r => let '(_, s, _) := r in s) l)) as [Hs|Hs];
  [destruct (in_dec String.string_dec g (map (fun r => let '(g, _, _) := r in g) l)) as [Hg|Hg]|].
  + intros H. rewrite H. split; [exact Hs|]. split; [exact Hg|]. discriminate.
  + rewrite pivot_bool_entry_out by tauto. discriminate.
  + rewrite pivot_bool_entry_out by tauto. discriminate.
- intros (Hs & Hg & Ht). rewrite (pivot_bool_entry_in l s g Hs Hg) in *.
  destruct (existsb _ l); [tauto | reflexivity].
Qed.

Lemma HdRel_insert_sorted a x l :
  String.leb a x = true -> HdRel (fun u v => String.leb u v = true) a l ->
  HdRel (fun u v => String.leb u v = true) a (insert_sorted x l).
Proof.
intros Hax Hl. destruct l as [|y r]; cbn; [constructor; exact Hax|].
destruct (String.leb x y); constructor; [exact Hax|]. inversion Hl; assumption.
Qed.

Lemma insert_sorted_Sorted x l :
  Sorted (fun u v => String.leb u v = true) l ->
  Sorted (fun u v => String.leb u v = true) (insert_sorted x l).
Proof.
induction l as [|y r IH]; intros H; cbn; [repeat constructor|].
destruct (String.leb x y) eqn:E; [constructor; [exact H | constructor; exact E]|].
inversion H as [|? ? Hr Hyr]; subst.
constructor; [exact (IH Hr)|].
apply HdRel_insert_sorted; [|exact Hyr].
destruct (String.leb_total x y) as [E'|E']; [congruence | exact E'].
Qed.

Lemma insert_sorted_perm x l : Permutation (insert_sorted x l) (x :: l).
Proof.
induction l as [|y r IH]; cbn; [reflexivity|].
destruct (String.leb x y); [reflexivity|].
rewrite IH. apply perm_swap.
Qed.

Lemma NoDup_uniq l : List.NoDup (uniq l).
Proof.
induction l as [|x r IH]; cbn; [constructor|].
destruct (existsb (String.eqb x) r) eqn:E; [exact IH|].
constructor; [|exact IH]. rewrite In_uniq. intros Hx.
assert (existsb (String.eqb x) r = true) by (apply existsb_exists; exists x; rewrite String.eqb_refl; auto).
congruence.
Qed.

Lemma sorted_labels_sorted l :
  List.NoDup (sorted_labels l) /\ Sorted (fun u v => String.leb u v = true) (sorted_labels l).
Proof.
unfold sorted_labels. split.
- assert (Hp : Permutation (fold_right insert_sorted [] (uniq l)) (uniq l)).
  { induction (uniq l) as [|x r IH]; cbn; [reflexivity|].
    rewrite insert_sorted_perm, IH. reflexivity. }
  apply (Permutation_NoDup (Permutation_sym Hp)). apply NoDup_uniq.
- induction (uniq l) as [|x r IH]; cbn; [constructor|]. apply insert_sorted_Sorted, IH.
Qed.

Lemma mutation_matrix_pivot rows fs m :
  mutation_matrix rows fs = inr m ->
  exists l, with_ids (count_filter rows) fs = inr l /\ m = pivot_bool (drop_duplicates l).
Proof.
unfold mutation_matrix. intros H. inv_bind H. injection Hk as <-. eauto.
Qed.

Lemma drop_duplicates_aux_ids seen (l : list (string * string * string)) :
  List.NoDup (map snd (drop_duplicates_aux seen l)) /\
  (forall t, In t (drop_duplicates_aux seen l) -> ~ In (snd t) seen) /\
  (forall i, In i (map snd l) -> In i seen \/ In i (map snd (drop_duplicates_aux seen l))).
Proof.
revert seen. induction l as [|[[g s] i] r IH]; intros seen; cbn.
- split; [constructor|]. split; [tauto|]. tauto.
- destruct (existsb (String.eqb i) seen) eqn:E.
  + destruct (IH seen) as (H1 & H2 & H3). split; [exact H1|]. split; [exact H2|].
    intros j [<-|Hj]; [|exact (H3 j Hj)]. left.
    apply existsb_exists in E. destruct E as (k & Hk & Ek). apply String.eqb_eq in Ek. subst. exact Hk.
  + destruct (IH (i :: seen)) as (H1 & H2 & H3). cbn.
    assert (Hni : ~ In i seen).
    { intros Hi. assert (existsb (String.eqb i) seen = true)
        by (apply existsb_exists; exists i; rewrite String.eqb_refl; auto). congruence. }
    split; [constructor; [|exact H1]|]. 
    * rewrite in_map_iff. intros (t & Et & Ht). apply (H2 t Ht). left. symmetry. exact Et.
    * split.
      -- intros t [<-|Ht]; [exact Hni|]. intros Hs. apply (H2 t Ht). right. exact Hs.
      -- intros j [<-|Hj]; [right; left; reflexivity|].
         destruct (H3 j Hj) as [[<-|Hs]|Hd]; [right; left; reflexivity | left; exact Hs | right; right; exact Hd].
Qed.

Lemma drop_duplicates_aux_first seen (l : list (string * string * string)) t :
  In t (drop_duplicates_aux seen l) ->
  exists pre post, l = app pre (t :: post) /\ ~ In (snd t) (map snd pre).
Proof.
revert seen. induction l as [|[[g s] i] r IH]; intros seen; cbn; [tauto|].
destruct (existsb (String.eqb i) seen) eqn:E.
- intros Ht. destruct (IH _ Ht) as (pre & post & -> & Hpre).
  exists ((g, s, i) :: pre), post. split; [reflexivity|]. cbn.
  intros [Ei|Hi]; [|exact (Hpre Hi)].
  apply (proj1 (proj2 (drop_duplicates_aux_ids seen _)) t Ht).
  apply existsb_exists in E. destruct E as (k & Hk & Ek). apply String.eqb_eq in Ek. subst. exact Hk.
- intros [<-|Ht]; [exists [], r; split; [reflexivity | tauto]|].
  destruct (IH _ Ht) as (pre & post & -> & Hpre).
  exists ((g, s, i) :: pre), post. split; [reflexivity|]. cbn.
  intros [Ei|Hi]; [|exact (Hpre Hi)].
  apply (proj1 (proj2 (drop_duplicates_aux_ids (i :: seen) _)) t Ht). left. exact Ei.
Qed.

End MatrixFacts.

Section MatrixTheorems.

(** X1: an entry of the matrix built by the common tail of
    [depmap_damaging] and [depmap_hotspot] is [True] exactly when a row of
    the deduplicated table has that sample and that gene, [False] when the
    sample and the gene each occur in some row but never together, and
    missing when the sample or the gene occurs in no row. *)
Theorem mutation_matrix_entries rows fs m :
  mutation_matrix rows fs = inr m ->
  exists l, with_ids (count_filter rows) fs = inr l /\
  forall s g,
    (mm_entry m s g = Some true <-> exists i, In (g, s, i) (drop_duplicates l)) /\
    (mm_entry m s g = Some false <->
       (exists g' i, In (g', s, i) (drop_duplicates l)) /\
       (exists s' i, In (g, s', i) (drop_duplicates l)) /\
       ~ exists i, In (g, s, i) (drop_duplicates l)) /\
    (mm_entry m s g = None <->
       (~ exists g' i, In (g', s, i) (drop_duplicates l)) \/
       (~ exists s' i, In (g, s', i) (drop_duplicates l))).
Proof.
intros H. destruct (mutation_matrix_pivot rows fs m H) as (l & Hl & ->).
exists l. split; [exact Hl|]. intros s g.
split; [apply pivot_bool_true|]. split; [apply pivot_bool_false|].
rewrite <- In_samples, <- In_genes. split.
- intros Hn.
  destruct (in_dec String.string_dec s (map (fun r => let '(_, s, _) := r in s) (drop_duplicates l))) as [Hs|Hs];
  [destruct (in_dec String.string_dec g (map (fun r => let '(g, _, _) := r in g) (drop_duplicates l))) as [Hg|Hg]|].
  + rewrite (pivot_bool_entry_in _ s g Hs Hg) in Hn. discriminate.
  + right. exact Hg.
  + left. exact Hs.
- intros Ho. apply pivot_bool_entry_out. exact Ho.
Qed.

(** X2: the matrix's sample index and gene columns are each free of
    duplicates and in ascending string order, and the values have one row
    per sample and one entry per gene in each row. *)
Theorem mutation_matrix_axes rows fs m :
  mutation_matrix rows fs = inr m ->
  List.NoDup (mm_index m) /\ Sorted (fun u v => String.leb u v = true) (mm_index m) /\
  List.NoDup (mm_columns m) /\ Sorted (fun u v => String.leb u v = true) (mm_columns m) /\
  length (mm_values m) = length (mm_index m) /\
  Forall (fun row => length row = length (mm_columns m)) (mm_values m).
Proof.
intros H. destruct (mutation_matrix_pivot rows fs m H) as (l & _ & ->).
unfold pivot_bool. cbn [mm_index mm_columns mm_values].
destruct (sorted_labels_sorted (map (fun r => let '(_, s, _) := r in s) (drop_duplicates l))) as [N1 S1].
destruct (sorted_labels_sorted (map (fun r => let '(g, _, _) := r in g) (drop_duplicates l))) as [N2 S2].
split; [exact N1|]. split; [exact S1|]. split; [exact N2|]. split; [exact S2|].
split; [apply length_map|].
apply List.Forall_forall. intros row Hrow. apply in_map_iff in Hrow.
destruct Hrow as (s & <- & _). apply length_map.
Qed.

(** X3: the matrix has no empty line: every sample of its index has a
    [True] entry for some gene, and every gene of its columns has a [True]
    entry for some sample. *)
Theorem mutation_matrix_no_empty_lines rows fs m :
  mutation_matrix rows fs = inr m ->
  (forall s, In s (mm_index m) -> exists g, mm_entry m s g = Some true) /\
  (forall g, In g (mm_columns m) -> exists s, mm_entry m s g = Some true).
Proof.
intros H. destruct (mutation_matrix_pivot rows fs m H) as (l & _ & ->).
unfold pivot_bool at 1 3. cbn [mm_index mm_columns]. split.
- intros s Hs. apply In_sorted_labels, In_samples in Hs. destruct Hs as (g & i & Hi).
  exists g. apply pivot_bool_true. eauto.
- intros g Hg. apply In_sorted_labels, In_genes in Hg. destruct Hg as (s & i & Hi).
  exists s. apply pivot_bool_true. eauto.
Qed.

(** X4: [drop_duplicates(subset=["id"], keep="first")] leaves each id at
    most once, loses no id, and keeps for each id the first row that has
    it, the rows before it in the input having other ids. *)
Theorem drop_duplicates_keeps_first (l : list (string * string * string)) :
  List.NoDup (map snd (drop_duplicates l)) /\
  (forall i, In i (map snd l) <-> In i (map snd (drop_duplicates l))) /\
  (forall t, In t (drop_duplicates l) ->
     exists pre post, l = app pre (t :: post) /\ ~ In (snd t) (map snd pre)).
Proof.
unfold drop_duplicates. destruct (drop_duplicates_aux_ids [] l) as (H1 & _ & H3).
split; [exact H1|]. split.
- intros i. split; [intros Hi; destruct (H3 i Hi) as [[]|Hd]; exact Hd|].
  rewrite !in_map_iff. intros (t & Et & Ht). exists t. split; [exact Et|].
  exact (drop_duplicates_aux_incl _ _ _ Ht).
- intros t Ht. exact (drop_duplicates_aux_first [] l t Ht).
Qed.

End MatrixTheorems.

Module MatrixExamples.
Import Examples.

Lemma mutation_matrix_entries_witness :
  mutation_matrix (mutation_rows (map CStr ex7_genes) (map CStr ex7_samples)) (mut_files ex7_df)
    = inr ex7_matrix /\
  exists l, with_ids (count_filter (mutation_rows (map CStr ex7_genes) (map CStr ex7_samples)))
              (mut_files ex7_df) = inr l /\
  forall s g,
    (mm_entry ex7_matrix s g = Some true <-> exists i, In (g, s, i) (drop_duplicates l)) /\
    (mm_entry ex7_matrix s g = Some false <->
       (exists g' i, In (g', s, i) (drop_duplicates l)) /\
       (exists s' i, In (g, s', i) (drop_duplicates l)) /\
       ~ exists i, In (g, s, i) (drop_duplicates l)) /\
    (mm_entry ex7_matrix s g = None <->
       (~ exists g' i, In (g', s, i) (drop_duplicates l)) \/
       (~ exists s' i, In (g, s', i) (drop_duplicates l))).
Proof.
assert (E : mutation_matrix (mutation_rows (map CStr ex7_genes) (map CStr ex7_samples)) (mut_files ex7_df)
              = inr ex7_matrix) by (vm_compute; reflexivity).
exact (conj E (mutation_matrix_entries _ _ _ E)).
Defined.

Lemma mutation_matrix_axes_witness :
  mutation_matrix (mutation_rows (map CStr ex7_genes) (map CStr ex7_samples)) (mut_files ex7_df)
    = inr ex7_matrix /\
  List.NoDup (mm_index ex7_matrix) /\ Sorted (fun u v => String.leb u v = true) (mm_index ex7_matrix) /\
  List.NoDup (mm_columns ex7_matrix) /\ Sorted (fun u v => String.leb u v = true) (mm_columns ex7_matrix) /\
  length (mm_values ex7_matrix) = length (mm_index ex7_matrix) /\
  Forall (fun row => length row = length (mm_columns ex7_matrix)) (mm_values ex7_matrix).
Proof.
assert (E : mutation_matrix (mutation_rows (map CStr ex7_genes) (map CStr ex7_samples)) (mut_files ex7_df)
              = inr ex7_matrix) by (vm_compute; reflexivity).
exact (conj E (mutation_matrix_axes _ _ _ E)).
Defined.

Lemma mutation_matrix_no_empty_lines_witness :
  mutation_matrix (mutation_rows (map CStr ex7_genes) (map CStr ex7_samples)) (mut_files ex7_df)
    = inr ex7_matrix /\
  (forall s, In s (mm_index ex7_matrix) -> exists g, mm_entry ex7_matrix s g = Some true) /\
  (forall g, In g (mm_columns ex7_matrix) -> exists s, mm_entry ex7_matrix s g = Some true).
Proof.
assert (E : mutation_matrix (mutation_rows (map CStr ex7_genes) (map CStr ex7_samples)) (mut_files ex7_df)
              = inr ex7_matrix) by (vm_compute; reflexivity).
exact (conj E (mutation_matrix_no_empty_lines _ _ _ E)).
Defined.

End MatrixExamples.

(* ------------------------------------------------------------------ *)
(** ** Hotspot flags after the string cast *)

Section HotspotFacts.





End HotspotFacts.

Section HotspotTheorems.


End HotspotTheorems.

Module HotspotExamples.
Import Examples.


End HotspotExamples.

(* ------------------------------------------------------------------ *)
(** ** Integers through [str] and back *)

Section IntText.

Lemma digit_char_facts d : 0 <= d < 10 ->
  is_digit (digit_char d) = true /\ is_space (digit_char d) = false /\
  Ascii.eqb (digit_char d) "-"%char = false /\ Ascii.eqb (digit_char d) "+"%char = false /\
  Z.of_nat (nat_of_ascii (digit_char d) - 48) = d.
Proof.
intros H.
assert (Hd : d = 0 \/ d = 1 \/ d = 2 \/ d = 3 \/ d = 4 \/ d = 5 \/ d = 6 \/ d = 7 \/ d = 8 \/ d = 9) by lia.
repeat (destruct Hd as [-> | Hd]; [vm_compute; repeat split; reflexivity|]).
subst. vm_compute. repeat split; reflexivity.
Qed.

Lemma digits_fuel_spec fuel : forall n acc, (0 < fuel)%nat -> 0 <= n < 10 ^ Z.of_nat fuel ->
  exists D, list_ascii_of_string (digits_fuel fuel n acc) = app D (list_ascii_of_string acc) /\
    D <> [] /\ List.Forall (fun a => exists d, 0 <= d < 10 /\ a = digit_char d) D /\
    forall k rest, parse_digits (app D rest) k = parse_digits rest (k * 10 ^ Z.of_nat (length D) + n).
Proof.
induction fuel as [|f IH]; intros n acc Hf Hn; [lia|].
cbn [digits_fuel].
assert (Hm : 0 <= n mod 10 < 10) by (apply Z.mod_pos_bound; lia).
destruct (digit_char_facts _ Hm) as (Dg & _ & _ & _ & Dv).
destruct (Z.ltb n 10) eqn:Hlt.
- apply Z.ltb_lt in Hlt. exists [digit_char (n mod 10)]. split; [reflexivity|].
  split; [discriminate|]. split; [repeat constructor; eauto|].
  intros k rest. cbn [app parse_digits]. rewrite Dg, Dv.
  rewrite Z.mod_small by lia. f_equal. cbn. lia.
- apply Z.ltb_ge in Hlt.
  destruct f as [|f']; [cbn in Hn; lia|].
  assert (Hq : 0 <= n / 10 < 10 ^ Z.of_nat (S f')).
  { split; [apply Z.div_pos; lia|]. apply Z.div_lt_upper_bound; [lia|].
    rewrite Nat2Z.inj_succ, Z.pow_succ_r in Hn by lia. lia. }
  destruct (IH (n / 10) (String (digit_char (n mod 10)) acc) ltac:(lia) Hq)
    as (D & HD & Hne & HF & HP).
  exists (app D [digit_char (n mod 10)]). split.
  { rewrite HD. cbn. rewrite <- app_assoc. reflexivity. }
  split; [destruct D; [contradiction | discriminate]|].
  split; [apply Forall_app; split; [exact HF | repeat constructor; eauto]|].
  intros k rest. rewrite <- app_assoc. rewrite HP. cbn [app parse_digits]. rewrite Dg, Dv.
  rewrite length_app. cbn [length]. rewrite Nat.add_1_r, Nat2Z.inj_succ, Z.pow_succ_r by lia.
  f_equal. rewrite (Z.div_mod n 10) at 3 by lia. ring.
Qed.

Lemma nat_digits_spec n :
  exists D, list_ascii_of_string (nat_digits n) = D /\ D <> [] /\
    List.Forall (fun a => exists d, 0 <= d < 10 /\ a = digit_char d) D /\
    parse_digits D 0 = Some (Z.abs n).
Proof.
unfold nat_digits.
assert (Hb : 0 <= Z.abs n < 10 ^ Z.of_nat (S (Z.to_nat (Z.log2 (Z.abs n))))).
{ split; [lia|]. rewrite Nat2Z.inj_succ, Z2Nat.id by apply Z.log2_nonneg.
  destruct (Z.eq_dec (Z.abs n) 0) as [E|E]; [rewrite E; cbn; lia|].
  destruct (Z.log2_spec (Z.abs n) ltac:(lia)) as [_ H2].
  eapply Z.lt_le_trans; [exact H2|]. apply Z.pow_le_mono_l. lia. }
destruct (digits_fuel_spec (S (Z.to_nat (Z.log2 (Z.abs n)))) (Z.abs n) "" ltac:(lia) Hb) as (D & HD & Hne & HF & HP).
exists D. rewrite HD, app_nil_r. split; [reflexivity|]. split; [exact Hne|]. split; [exact HF|].
rewrite <- (app_nil_r D), HP. reflexivity.
Qed.

Lemma strip_nonspace a r b r' :
  a :: r = app r' [b] -> is_space a = false -> is_space b = false ->
  rev (strip_left (rev (strip_left (a :: r)))) = a :: r.
Proof.
intros E Ha Hb. cbn [strip_left]. rewrite Ha. rewrite E, rev_app_distr. cbn [rev app strip_left].
rewrite Hb. cbn [rev]. rewrite rev_involutive. reflexivity.
Qed.

Lemma int_repr_round_trip z : py_int_of_string (int_repr z) = Some z.
Proof.
destruct (nat_digits_spec z) as (D & HD & Hne & HF & HP).
destruct (exists_last Hne) as (D0 & dl & ED).
assert (Hdl : is_space dl = false).
{ rewrite ED in HF. apply Forall_app in HF. destruct HF as [_ HF].
  inversion HF as [|? ? (d & Hd & ->) _]. exact (proj1 (proj2 (digit_char_facts d Hd))). }
destruct D as [|d1 D1]; [contradiction|].
assert (Hd1 : exists d, 0 <= d < 10 /\ d1 = digit_char d) by (inversion HF; assumption).
destruct Hd1 as (d & Hd & ->). destruct (digit_char_facts d Hd) as (Dg & Ds & Dm & Dp & _).
unfold py_int_of_string, strip, int_repr.
destruct (Z.ltb z 0) eqn:Hz.
- apply Z.ltb_lt in Hz. change (list_ascii_of_string ("-" +:+ nat_digits z)) with ("-"%char :: list_ascii_of_string (nat_digits z)). rewrite HD.
  rewrite (strip_nonspace "-"%char (digit_char d :: D1) dl ("-"%char :: D0))
    by first [reflexivity | exact Hdl | rewrite ED; reflexivity].
  cbn [Ascii.eqb Bool.eqb]. cbn [parse_unsigned]. rewrite Dg, HP. cbn. f_equal. lia.
- apply Z.ltb_ge in Hz. rewrite HD.
  rewrite (strip_nonspace _ D1 dl D0) by (first [exact ED | exact Ds | exact Hdl]).
  rewrite Dm, Dp. cbn [parse_unsigned]. rewrite Dg, HP. f_equal. lia.
Qed.

End IntText.

(* ------------------------------------------------------------------ *)
(** ** Column access after a column assignment *)

Section ColumnFacts.

Lemma find_label_map (h : Cell * list Cell -> Cell * list Cell) l k :
  (forall c, fst (h c) = fst c) ->
  find (fun c => cell_eqb (fst c) k) (map h l) = option_map h (find (fun c => cell_eqb (fst c) k) l).
Proof.
intros Hh. induction l as [|c l IH]; [reflexivity|]. cbn. rewrite Hh.
destruct (cell_eqb (fst c) k); [reflexivity | exact IH].
Qed.

Lemma find_label_app (l : list (Cell * list Cell)) y k :
  find (fun c => cell_eqb (fst c) k) (app l [y]) =
  match find (fun c => cell_eqb (fst c) k) l with
  | Some c => Some c
  | None => if cell_eqb (fst y) k then Some y else None
  end.
Proof.
induction l as [|c l IH]; cbn; [destruct (cell_eqb (fst y) k); reflexivity|].
destruct (cell_eqb (fst c) k); [reflexivity | exact IH].
Qed.

Lemma getcol_astype_str df name fs v :
  getcol df name fs = inr v ->
  getcol (astype_str df) name fs = inr (map (fun x => CStr (py_str x)) v).
Proof.
unfold getcol, astype_str. cbn [fr_columns].
rewrite find_label_map by reflexivity.
destruct (find _ (fr_columns df)) as [[c v']|]; cbn; [|discriminate].
intros H. injection H as <-. reflexivity.
Qed.

Lemma getcol_setcol_same df name v fs :
  getcol (setcol df name v) name fs = inr v.
Proof.
unfold getcol, setcol.
destruct (existsb (fun c => cell_eqb (fst c) (CStr name)) (fr_columns df)) eqn:E; cbn [fr_columns].
- induction (fr_columns df) as [|c l IH]; cbn in E |- *; [discriminate|].
  destruct (cell_eqb (fst c) (CStr name)) eqn:Ec; cbn; [rewrite Ec; reflexivity|].
  rewrite Ec. exact (IH E).
- rewrite find_label_app. cbn [fst]. rewrite (proj2 (cell_eqb_CStr _ _) eq_refl).
  destruct (find _ (fr_columns df)) as [c|] eqn:F; [|reflexivity].
  apply find_some in F. destruct F as [Hin Hc].
  assert (existsb (fun c => cell_eqb (fst c) (CStr name)) (fr_columns df) = true)
    by (apply existsb_exists; eauto). congruence.
Qed.

Lemma bind_inr_l {A B} (m : R A) (k : A -> R B) fs a :
  m fs = inr a -> bind m k fs = k a fs.
Proof. intros H. unfold bind. rewrite H. reflexivity. Qed.

Lemma getcol_setcol_other_fun df name name' v :
  name' <> name -> getcol (setcol df name v) name' = getcol df name'.
Proof.
intros Hne. unfold getcol at 1, setcol.
assert (Hlab : forall c : Cell * list Cell, cell_eqb (fst c) (CStr name') = true -> cell_eqb (fst c) (CStr name) = false).
{ intros c Hc. apply cell_eqb_CStr in Hc. rewrite Hc. cbn. apply String.eqb_neq. congruence. }
unfold getcol. destruct (existsb _ _); cbn [fr_columns].
- rewrite find_label_map by (intros c; destruct (cell_eqb (fst c) (CStr name)); reflexivity).
  destruct (find _ (fr_columns df)) as [c|] eqn:F; cbn; [|reflexivity].
  apply find_some in F. rewrite (Hlab c (proj2 F)). reflexivity.
- rewrite find_label_app. destruct (find _ (fr_columns df)); [reflexivity|].
  cbn [fst]. destruct (cell_eqb (CStr name) (CStr name')) eqn:E; [|reflexivity].
  apply cell_eqb_CStr in E. congruence.
Qed.

Lemma mapM_to_int_int_text l fs :
  Forall (fun x => is_int64_cell x = true) l ->
  mapM to_int (map (fun x => CStr (py_str x)) l) fs = inr l.
Proof.
induction 1 as [|x l Hx _ IH]; [reflexivity|].
destruct x as [| |z| | |]; try discriminate. cbn in Hx. cbn [map mapM]. unfold bind at 1. cbn [to_int py_str].
rewrite int_repr_round_trip. unfold to_int64. rewrite Hx. cbn. unfold bind. rewrite IH. reflexivity.
Qed.




Lemma bind_inl_cases {A B} (m : R A) (k : A -> R B) fs e :
  bind m k fs = inl e -> m fs = inl e \/ exists a, m fs = inr a /\ k a fs = inl e.
Proof. unfold bind. destruct (m fs); [left; congruence | right; eauto]. Qed.




End ColumnFacts.

Section MutationsTheorems.

(** X6: when the raw mutation file has [Start_position] and
    [End_position] columns of [int]s within numpy's [int64] range,
    [depmap_mutations] succeeds and gives those two columns back with the
    same values: [str] then [int] of such an [int] is the identity. *)
Theorem depmap_mutations_keeps_positions raw fs df0 vs ve :
  read_csv raw fs = inr df0 ->
  getcol df0 "Start_position" fs = inr vs ->
  getcol df0 "End_position" fs = inr ve ->
  Forall (fun x => is_int64_cell x = true) vs ->
  Forall (fun x => is_int64_cell x = true) ve ->
  exists df, Depmap.depmap_mutations raw fs = inr df /\
    getcol df "Start_position" fs = inr vs /\ getcol df "End_position" fs = inr ve.
Proof.
intros Hr Hs He Is Ie.
assert (E1 : col_astype_int (astype_str df0) "Start_position" fs =
             inr (setcol (astype_str df0) "Start_position" vs)).
{ unfold col_astype_int. rewrite (bind_inr_l _ _ _ _ (getcol_astype_str _ _ _ _ Hs)).
  rewrite (bind_inr_l _ _ _ _ (mapM_to_int_int_text _ _ Is)). reflexivity. }
assert (E2 : col_astype_int (setcol (astype_str df0) "Start_position" vs) "End_position" fs =
             inr (setcol (setcol (astype_str df0) "Start_position" vs) "End_position" ve)).
{ unfold col_astype_int. rewrite getcol_setcol_other_fun by discriminate.
  rewrite (bind_inr_l _ _ _ _ (getcol_astype_str _ _ _ _ He)).
  rewrite (bind_inr_l _ _ _ _ (mapM_to_int_int_text _ _ Ie)). reflexivity. }
unfold Depmap.depmap_mutations. rewrite (bind_inr_l _ _ _ _ Hr), (bind_inr_l _ _ _ _ E1), (bind_inr_l _ _ _ _ E2).
eexists. split; [reflexivity|]. split.
- rewrite getcol_setcol_other_fun by discriminate. apply getcol_setcol_same.
- apply getcol_setcol_same.
Qed.


End MutationsTheorems.

Module MutationsExamples.
Import Examples.

Lemma depmap_mutations_keeps_positions_witness :
  exists df,
    Depmap.depmap_mutations "download/mutations.tsv" mutations_files = inr df /\
    getcol df "Start_position" mutations_files = inr [CInt 7675994; CInt 25245350] /\
    getcol df "End_position" mutations_files = inr [CInt 7675995; CInt 25245351].
Proof.
pose proof (depmap_mutations_keeps_positions "download/mutations.tsv" mutations_files
  (mkFrame [CInt 0; CInt 1]
     [(CStr "Hugo_Symbol", [CStr "TP53"; CStr "KRAS"]);
      (CStr "Start_position", [CInt 7675994; CInt 25245350]);
      (CStr "End_position", [CInt 7675995; CInt 25245351]);
      (CStr "isTCGAhotspot", [CBool true; CBool false])])
  [CInt 7675994; CInt 25245350] [CInt 7675995; CInt 25245351]) as H.
specialize (H ltac:(vm_compute; reflexivity)).
specialize (H ltac:(vm_compute; reflexivity)).
specialize (H ltac:(vm_compute; reflexivity)).
specialize (H ltac:(repeat constructor)).
specialize (H ltac:(repeat constructor)).
exact H.
Defined.


End MutationsExamples.

(* ------------------------------------------------------------------ *)
(** ** What a run leaves in the store *)

Section RunnerStore.
Variables P D : string.
Variable catalog : list (string * Process.Body).

Lemma check_dependencies_outcome_state deps st :
  outcome_state (Process.check_dependencies P deps st) = st.
Proof.
unfold Process.check_dependencies.
destruct deps as [|s|z|b|x|x]; [| | | |destruct x|destruct x]; cbn -[py_split]; try reflexivity.
generalize (py_split "," s) as l. intros l.
induction l as [|d l IH]; cbn; [reflexivity|].
unfold Process.file_exists, bindM.
destruct (bool_decide _); cbn; [exact IH | reflexivity].
Qed.

Lemma run_file_store file st :
  let st' := outcome_state (Process.run_file P D catalog file st) in
  grows st st' /\
  forall p v, st_processed st' !! p = Some v ->
    st_processed st !! p = Some v \/
    (Process.materializable (Process.d_type file) = true /\
     Process.lookup_method catalog (Process.d_id file) <> None /\
     p = Process.h5_path P (Process.d_id file)).
Proof.
cbv zeta. unfold Process.run_file.
destruct (Process.materializable _) eqn:Hm; [|split; [apply grows_refl | auto]].
unfold bindM, Process.file_exists.
destruct (bool_decide (is_Some (st_processed st !! Process.h5_path P (Process.d_id file)))) eqn:He.
{ cbn. split; [split; cbn; auto | auto]. }
destruct (Process.getattr_Processors P catalog (Process.d_id file)) as [h|] eqn:Hg.
2:{ cbn. split; [apply grows_refl | auto]. }
unfold Process.getattr_Processors in Hg.
destruct (Process.lookup_method catalog (Process.d_id file)) as [body|] eqn:Hl; cbn in Hg; [|discriminate].
injection Hg as <-. unfold log.
match goal with
| |- context [Process.check_dependencies P ?d ?s0] =>
    pose proof (check_dependencies_outcome_state d s0) as Hc;
    destruct (Process.check_dependencies P d s0) as [u st1|e st1]; cbn in Hc; subst st1
end.
2:{ cbn. split; [split; cbn; auto | auto]. }
unfold Process.exporting, lift, bindM, retM, Process.export_hdf.
match goal with
| |- context [body ?r ?s0] => destruct (body r s0) as [e|df]
end.
{ cbn. split; [split; cbn; auto | auto]. }
cbn. apply bool_decide_eq_false in He. split.
- split; [reflexivity|]. cbn. intros p v Hp.
  destruct (decide (p = Process.h5_path P (Process.d_id file))) as [->|Hne].
  + exfalso. apply He. rewrite Hp. eauto.
  + rewrite lookup_insert_ne; auto.
- intros p v.
  destruct (decide (p = Process.h5_path P (Process.d_id file))) as [->|Hne].
  + intros _. right. split; [reflexivity|]. split; [congruence | reflexivity].
  + rewrite lookup_insert_ne by auto. intros H. left. exact H.
Qed.

(** X8: a run of the loop of [__main__], whether it completes or stops on
    an exception, never removes or overwrites an artifact that was
    present and never touches the downloads; every artifact it adds is
    at [PROCESSED_DIR/<id>.h5] for the id of a materializable row of the
    schema that has a method in [Processors]. *)
Theorem run_schema_store schema st :
  let st' := outcome_state (Process.run_schema P D catalog schema st) in
  grows st st' /\
  forall p v, st_processed st' !! p = Some v ->
    st_processed st !! p = Some v \/
    exists file, In file schema /\
      Process.materializable (Process.d_type file) = true /\
      Process.lookup_method catalog (Process.d_id file) <> None /\
      p = Process.h5_path P (Process.d_id file).
Proof.
cbv zeta. unfold Process.run_schema. revert st.
induction schema as [|file schema IH]; intros st; cbn [iterM].
{ cbn. split; [apply grows_refl | auto]. }
pose proof (run_file_store file st) as [Hg1 Hn1]. cbv zeta in Hg1, Hn1.
unfold bindM.
destruct (Process.run_file P D catalog file st) as [u st2|e st2]; cbn in Hg1, Hn1.
- destruct (IH st2) as [Hg2 Hn2]. split; [exact (grows_trans _ _ _ Hg1 Hg2)|].
  intros p v Hp. destruct (Hn2 p v Hp) as [Hp2|(f & Hf & Hf')].
  + destruct (Hn1 p v Hp2) as [Hp1|Hf1]; [left; exact Hp1 | right; exists file; split; [left; reflexivity | exact Hf1]].
  + right. exists f. split; [right; exact Hf | exact Hf'].
- cbn. split; [exact Hg1|]. intros p v Hp.
  destruct (Hn1 p v Hp) as [Hp1|Hf1]; [left; exact Hp1 | right; exists file; split; [left; reflexivity | exact Hf1]].
Qed.

End RunnerStore.

(* ------------------------------------------------------------------ *)
(** ** [str.split] and [parentheses_to_snake] *)

Section SplitFacts.

Lemma append_cons c a b : String c a +:+ b = String c (a +:+ b).
Proof. reflexivity. Qed.

Lemma append_empty_l b : "" +:+ b = b.
Proof. reflexivity. Qed.

Lemma append_empty_r s : s +:+ "" = s.
Proof. induction s as [|c s IH]; [reflexivity | rewrite append_cons, IH; reflexivity]. Qed.

Lemma length_append_str a b : String.length (a +:+ b) = (String.length a + String.length b)%nat.
Proof.
induction a as [|x a IH]; [reflexivity|].
rewrite append_cons. cbn [String.length]. rewrite IH. reflexivity.
Qed.

Lemma list_ascii_append a b :
  list_ascii_of_string (a +:+ b) = app (list_ascii_of_string a) (list_ascii_of_string b).
Proof.
induction a as [|c a IH]; [reflexivity|].
rewrite append_cons. cbn [list_ascii_of_string]. rewrite IH. reflexivity.
Qed.

Lemma substring_all s m : (String.length s <= m)%nat -> String.substring 0 m s = s.
Proof.
revert m. induction s as [|c s IH]; intros m Hm; destruct m as [|m]; cbn in *; try reflexivity; [lia|].
rewrite IH by lia. reflexivity.
Qed.

Lemma prefix_split sep s m :
  (String.length s <= m)%nat -> String.prefix sep s = true ->
  s = sep +:+ String.substring (String.length sep) m s.
Proof.
revert s. induction sep as [|a sep IH]; intros s Hm H.
- rewrite append_empty_l. cbn [String.length]. rewrite substring_all by exact Hm. reflexivity.
- destruct s as [|b s]; cbn in H; [discriminate|].
  destruct (ascii_dec a b) as [<-|]; [|discriminate].
  rewrite append_cons. cbn [String.length String.substring]. f_equal.
  apply IH; [cbn in Hm; lia | exact H].
Qed.

Lemma split_fuel_nonempty f sep s : split_fuel f sep s <> [].
Proof.
revert s. induction f as [|f IH]; intros s; cbn; [discriminate|].
destruct s as [|c rest]; [discriminate|].
destruct (String.prefix sep (String c rest)); [discriminate|].
destruct (split_fuel f sep rest); discriminate.
Qed.

Lemma split_fuel_concat sep : sep <> "" ->
  forall f s, (String.length s < f)%nat -> String.concat sep (split_fuel f sep s) = s.
Proof.
intros Hsep. induction f as [|f IH]; intros s Hs; [lia|].
destruct s as [|c rest]; [reflexivity|]. cbn [split_fuel].
destruct (String.prefix sep (String c rest)) eqn:Hp.
- set (sub := String.substring (String.length sep) (String.length (String c rest)) (String c rest)).
  assert (E : String c rest = sep +:+ sub) by (apply prefix_split; [lia | exact Hp]).
  assert (Hl : (String.length sub < f)%nat).
  { assert (L : String.length (String c rest) = (String.length sep + String.length sub)%nat)
      by (rewrite E at 1; apply length_append_str).
    destruct sep as [|x sep]; [congruence|]. cbn [String.length] in L, Hs. lia. }
  pose proof (IH _ Hl) as Hc. pose proof (split_fuel_nonempty f sep sub) as Hne.
  destruct (split_fuel f sep sub) as [|x xs]; [congruence|].
  change (String.concat sep ("" :: x :: xs)) with ("" +:+ sep +:+ String.concat sep (x :: xs)).
  rewrite Hc, append_empty_l. symmetry. exact E.
- cbn in Hs. pose proof (IH rest ltac:(lia)) as Hc. pose proof (split_fuel_nonempty f sep rest) as Hne.
  destruct (split_fuel f sep rest) as [|x xs]; [congruence|].
  destruct xs as [|y ys].
  + cbn in Hc |- *. rewrite Hc. reflexivity.
  + change (String.concat sep (String c x :: y :: ys)) with (String c x +:+ sep +:+ String.concat sep (y :: ys)).
    change (String.concat sep (x :: y :: ys)) with (x +:+ sep +:+ String.concat sep (y :: ys)) in Hc.
    rewrite append_cons, Hc. reflexivity.
Qed.

Lemma split_fuel_no_paren g s :
  ~ In "("%char (list_ascii_of_string s) -> (String.length s < g)%nat ->
  split_fuel g " (" s = [s].
Proof.
revert g. induction s as [|c s IH]; intros g Hn Hg; destruct g as [|g]; cbn in Hg; try lia; [reflexivity|].
cbn [split_fuel].
assert (Hp : String.prefix " (" (String c s) = false).
{ cbn [String.prefix]. destruct (ascii_dec " " c); [|reflexivity].
  destruct s as [|d s]; [reflexivity|]. cbn [String.prefix].
  destruct (ascii_dec "(" d) as [<-|]; [|reflexivity].
  exfalso. apply Hn. right. left. reflexivity. }
rewrite Hp. rewrite IH; [reflexivity | | lia].
intros H. apply Hn. right. exact H.
Qed.

Lemma split_fuel_no_paren_prefix g a t :
  ~ In "("%char (list_ascii_of_string a) -> (forall r, t <> String "(" r) ->
  (String.length a + String.length t < g)%nat ->
  split_fuel g " (" (a +:+ t) =
    match split_fuel (g - String.length a) " (" t with
    | x :: xs => (a +:+ x) :: xs
    | [] => [a]
    end.
Proof.
revert g. induction a as [|c a IH]; intros g Hn Ht Hg.
- rewrite append_empty_l. cbn [String.length]. rewrite Nat.sub_0_r.
  pose proof (split_fuel_nonempty g " (" t) as Hne.
  destruct (split_fuel g " (" t); [congruence | reflexivity].
- destruct g as [|g]; [cbn in Hg; lia|].
  rewrite append_cons. cbn [split_fuel].
  assert (Hp : String.prefix " (" (String c (a +:+ t)) = false).
  { cbn [String.prefix]. destruct (ascii_dec " " c); [|reflexivity].
    destruct a as [|d a]; [rewrite append_empty_l | rewrite append_cons]; cbn [String.prefix].
    - destruct t as [|d t]; [reflexivity|]. cbn [String.prefix].
      destruct (ascii_dec "(" d) as [<-|]; [|reflexivity]. exfalso. exact (Ht t eq_refl).
    - destruct (ascii_dec "(" d) as [<-|]; [|reflexivity].
      exfalso. apply Hn. right. left. reflexivity. }
  rewrite Hp. cbn in Hg.
  rewrite IH; [ | intros H; apply Hn; right; exact H | exact Ht | lia].
  cbn [String.length]. rewrite Nat.sub_succ.
  destruct (split_fuel (g - String.length a) " (" t); reflexivity.
Qed.

Lemma split_fuel_sep_head g c :
  (String.length c < g)%nat ->
  split_fuel (S g) " (" (" (" +:+ c) = "" :: split_fuel g " (" c.
Proof.
intros Hg. change (" (" +:+ c) with (String " " (String "(" c)). cbn [split_fuel String.prefix].
destruct (ascii_dec " " " ") as [_|n]; [|congruence].
destruct (ascii_dec "(" "(") as [_|n]; [|congruence].
replace (String.prefix "" c) with true by (destruct c; reflexivity).
cbn [String.length String.substring].
rewrite substring_all by lia. reflexivity.
Qed.

Lemma drop_last_paren b : drop_last (b +:+ ")") = b.
Proof.
unfold drop_last. rewrite length_append_str. cbn [String.length]. rewrite Nat.add_sub.
induction b as [|c b IH]; [reflexivity|].
rewrite append_cons. cbn [String.length String.substring]. rewrite IH. reflexivity.
Qed.

End SplitFacts.

Section SplitTheorems.

(** X9: [s.split(sep)] for a non-empty separator loses nothing: joining
    the pieces with [sep] gives [s] back. *)
Theorem py_split_join sep s : sep <> "" -> String.concat sep (py_split sep s) = s.
Proof. intros H. apply split_fuel_concat; [exact H | lia]. Qed.

(** X10: [parentheses_to_snake] turns a label ["<a> (<b>)"], where [a]
    and [b] contain no opening parenthesis, into ["<a>_<b>"]. *)
Theorem parentheses_to_snake_label a b fs :
  ~ In "("%char (list_ascii_of_string a) -> ~ In "("%char (list_ascii_of_string b) ->
  parentheses_to_snake (CStr (a +:+ " (" +:+ b +:+ ")")) fs = inr (CStr (a +:+ "_" +:+ b)).
Proof.
intros Ha Hb. unfold parentheses_to_snake, py_split.
rewrite (split_fuel_no_paren_prefix _ a (" (" +:+ b +:+ ")") Ha ltac:(discriminate))
  by (rewrite !length_append_str; cbn; lia).
assert (Hb' : ~ In "("%char (list_ascii_of_string (b +:+ ")"))).
{ rewrite list_ascii_append. intros H. apply in_app_or in H. destruct H as [H|[H|[]]]; [exact (Hb H) | discriminate]. }
replace (S (String.length (a +:+ " (" +:+ b +:+ ")")) - String.length a)%nat
  with (S (S (S (String.length (b +:+ ")")))))%nat
  by (rewrite !length_append_str; cbn [String.length]; lia).
rewrite split_fuel_sep_head by lia.
rewrite split_fuel_no_paren by (first [exact Hb' | lia]).
cbn. rewrite append_empty_r, drop_last_paren. reflexivity.
Qed.

End SplitTheorems.

Module SplitExamples.

Lemma py_split_join_witness :
  "," <> "" /\ String.concat "," (py_split "," "ACH-000001,ACH-000002") = "ACH-000001,ACH-000002".
Proof. split; [discriminate | apply (py_split_join "," "ACH-000001,ACH-000002"); discriminate]. Defined.

Lemma parentheses_to_snake_label_witness :
  ~ In "("%char (list_ascii_of_string "A1BG") /\ ~ In "("%char (list_ascii_of_string "1") /\
  parentheses_to_snake (CStr ("A1BG" +:+ " (" +:+ "1" +:+ ")")) Examples.hotspot_files
  = inr (CStr ("A1BG" +:+ "_" +:+ "1")).
Proof.
assert (Ha : ~ In "("%char (list_ascii_of_string "A1BG"))
  by (cbn; intros [H|[H|[H|[H|[]]]]]; discriminate).
assert (Hb : ~ In "("%char (list_ascii_of_string "1")) by (cbn; intros [H|[]]; discriminate).
exact (conj Ha (conj Hb (parentheses_to_snake_label "A1BG" "1" Examples.hotspot_files Ha Hb))).
Defined.

End SplitExamples.

Section Float16Facts.

Lemma mapM_inl {A B} (f : A -> R B) (l : list A) fs e :
  mapM f l fs = inl e -> exists x, In x l /\ f x fs = inl e.
Proof.
induction l as [|x l IH]; cbn [mapM]; [discriminate|]. intros H.
apply bind_inl_cases in H as [H|(y & _ & H)]; [exists x; split; [left; reflexivity | exact H]|].
apply bind_inl_cases in H as [H|(ys & _ & H)]; [|discriminate].
destruct (IH H) as (x' & Hin & Hx'). exists x'. split; [right; exact Hin | exact Hx'].
Qed.






Lemma map_fst_imap_label (g : nat -> list Cell) (l : list string) :
  map fst (imap (fun j h => (CStr h, g j)) l) = map CStr l.
Proof.
revert g. induction l as [|h l IH]; intros g; [reflexivity|].
rewrite imap_cons. cbn [map fst]. f_equal. exact (IH (fun j => g (S j))).
Qed.

Lemma read_csv_index0_labels raw fs t :
  fs_downloads fs !! raw = Some t ->
  read_csv_index0 raw fs =
  inr (mkFrame (raw_column (rt_rows t) 0)
               (imap (fun j h => (CStr h, raw_column (rt_rows t) (S j))) (tail (rt_header t)))) /\
  column_labels (mkFrame (raw_column (rt_rows t) 0)
               (imap (fun j h => (CStr h, raw_column (rt_rows t) (S j))) (tail (rt_header t))))
  = map CStr (tail (rt_header t)).
Proof.
intros H. split; [unfold read_csv_index0; rewrite H; reflexivity|].
unfold column_labels. cbn [fr_columns]. apply map_fst_imap_label.
Qed.

Lemma parentheses_to_snake_str_error s fs e :
  parentheses_to_snake (CStr s) fs = inl e -> e = IndexError.
Proof.
unfold parentheses_to_snake. destruct (py_split " (" s) as [|a [|b l]]; cbv [raise ret]; congruence.
Qed.

Lemma parentheses_to_snake_no_paren s fs :
  ~ In "("%char (list_ascii_of_string s) -> parentheses_to_snake (CStr s) fs = inl IndexError.
Proof.
intros H. unfold parentheses_to_snake, py_split. rewrite split_fuel_no_paren by (first [exact H | lia]).
reflexivity.
Qed.

Lemma Forall2_In_left {A B} (Q : A -> B -> Prop) l1 l2 x :
  Forall2 Q l1 l2 -> In x l1 -> exists y, In y l2 /\ Q x y.
Proof.
induction 1 as [|a b l1 l2 Hab _ IH]; intros Hx; [destruct Hx|].
destruct Hx as [<-|Hx]; [exists b; split; [left; reflexivity | exact Hab]|].
destruct (IH Hx) as (y & Hy & Q'). exists y. split; [right; exact Hy | exact Q'].
Qed.

Lemma snake_labels_error l fs h :
  In h l -> ~ In "("%char (list_ascii_of_string h) ->
  mapM parentheses_to_snake (map CStr l) fs = inl IndexError.
Proof.
intros Hin Hh. destruct (mapM parentheses_to_snake (map CStr l) fs) as [e|ys] eqn:E.
- apply mapM_inl in E as (x & Hx & Hex). apply in_map_iff in Hx as (s & <- & _).
  rewrite (parentheses_to_snake_str_error _ _ _ Hex). reflexivity.
- apply mapM_inr in E. apply (in_map CStr) in Hin.
  destruct (Forall2_In_left _ _ _ _ E Hin) as (y & _ & Hy).
  rewrite parentheses_to_snake_no_paren in Hy by exact Hh. discriminate.
Qed.



End Float16Facts.

Section Float16Theorems.


(** X13: [avana] and [depmap_gene_tpm] raise [IndexError] when a column
    label of the downloaded file (a header field after the first) has no
    opening parenthesis, since [parentheses_to_snake] finds no second
    piece after [split(" (")]. *)
Theorem snake_columns_index_error raw fs t h :
  fs_downloads fs !! raw = Some t -> In h (tail (rt_header t)) ->
  ~ In "("%char (list_ascii_of_string h) ->
  Process.avana raw fs = inl IndexError /\ Process.depmap_gene_tpm raw fs = inl IndexError.
Proof.
intros Ht Hin Hh.
assert (E : Process.avana raw fs = inl IndexError).
{ destruct (read_csv_index0_labels raw fs t Ht) as [Er El]. unfold Process.avana.
  rewrite (bind_inr_l _ _ _ _ Er), El. unfold bind at 1.
  rewrite (snake_labels_error _ fs h Hin Hh). reflexivity. }
split; exact E.
Qed.


End Float16Theorems.

Section AnnotationFacts.

Lemma split_char_pieces c g s :
  (String.length s < g)%nat ->
  Forall (fun p => ~ In c (list_ascii_of_string p)) (split_fuel g (String c "") s).
Proof.
revert s. induction g as [|g IH]; intros s Hs; [lia|].
destruct s as [|a r]; cbn [split_fuel]; [constructor; [intros [] | constructor]|].
cbn [String.prefix]. destruct (ascii_dec c a) as [<-|Hne].
- replace (String.prefix "" r) with true by (destruct r; reflexivity).
  cbn [String.length String.substring]. rewrite substring_all by lia.
  constructor; [intros []|]. apply IH. cbn in Hs. lia.
- cbv beta iota. cbn in Hs. pose proof (IH r ltac:(lia)) as Hr.
  destruct (split_fuel g (String c "") r) as [|x xs]; inversion Hr as [|x' xs' Hx Hxs]; subst.
  + constructor; [|constructor]. intros [H|[]]. congruence.
  + constructor; [|exact Hxs]. intros [H|H]; [congruence | exact (Hx H)].
Qed.

Lemma concat_no_char c sep l :
  ~ In c (list_ascii_of_string sep) ->
  Forall (fun p => ~ In c (list_ascii_of_string p)) l ->
  ~ In c (list_ascii_of_string (String.concat sep l)).
Proof.
intros Hsep. induction 1 as [|x l Hx Hl IH]; [intros []|].
destruct l as [|y l]; [exact Hx|].
change (String.concat sep (x :: y :: l)) with (x +:+ sep +:+ String.concat sep (y :: l)).
rewrite !list_ascii_append. intros H. apply in_app_or in H as [H|H]; [exact (Hx H)|].
apply in_app_or in H as [H|H]; [exact (Hsep H) | exact (IH H)].
Qed.

Lemma py_replace_underscore s : ~ In "_"%char (list_ascii_of_string (py_replace "_" " " s)).
Proof.
unfold py_replace, py_split. apply concat_no_char; [intros [H|[]]; discriminate|].
apply split_char_pieces. lia.
Qed.

Lemma ascii_lower_underscore a : ascii_lower a = "_"%char -> a = "_"%char.
Proof. destruct a as [[][][][][][][][]]; vm_compute; intros H; congruence. Qed.

Lemma ascii_upper_underscore a : ascii_upper a = "_"%char -> a = "_"%char.
Proof. destruct a as [[][][][][][][][]]; vm_compute; intros H; congruence. Qed.

Lemma str_lower_underscore s :
  ~ In "_"%char (list_ascii_of_string s) -> ~ In "_"%char (list_ascii_of_string (str_lower s)).
Proof.
induction s as [|a s IH]; [intros _ []|]. intros Hn [H|H].
- apply Hn. left. exact (ascii_lower_underscore a H).
- apply IH; [intros H'; apply Hn; right; exact H' | exact H].
Qed.

Lemma py_capitalize_underscore s :
  ~ In "_"%char (list_ascii_of_string s) -> ~ In "_"%char (list_ascii_of_string (py_capitalize s)).
Proof.
destruct s as [|a s]; [intros _ []|]. intros Hn [H|H].
- apply Hn. left. exact (ascii_upper_underscore a H).
- apply (str_lower_underscore s); [intros H'; apply Hn; right; exact H' | exact H].
Qed.

Lemma display_disease_of_inr x fs y :
  Process.display_disease_of x fs = inr y ->
  exists s, y = CStr s /\ ~ In "_"%char (list_ascii_of_string s).
Proof.
destruct x as [|s0| | | |]; cbn; try discriminate. intros H. injection H as <-.
eexists. split; [reflexivity|]. apply py_capitalize_underscore, py_replace_underscore.
Qed.

Lemma display_disease_of_inl x fs e : Process.display_disease_of x fs = inl e -> e = AttributeError.
Proof. unfold Process.display_disease_of, ret, raise. destruct x; intros H; congruence. Qed.

Lemma unknown_if_blank_str s :
  ~ In "_"%char (list_ascii_of_string s) ->
  exists s', Process.unknown_if_blank (CStr s) = CStr s' /\
             ~ In "_"%char (list_ascii_of_string s') /\ s' <> " ".
Proof.
intros Hs. unfold Process.unknown_if_blank. cbn [cell_eqb].
destruct (String.eqb_spec s " ") as [->|Hne].
- exists "Unknown". split; [reflexivity|]. split; [|discriminate].
  cbn. intros H. repeat destruct H as [H|H]; try discriminate; exact H.
- exists s. split; [reflexivity|]. split; [exact Hs | exact Hne].
Qed.

Lemma mapM_inl_only {A B} (f : A -> R B) (l : list A) fs e0 x :
  (forall y e, f y fs = inl e -> e = e0) -> In x l -> (forall b, f x fs <> inr b) ->
  mapM f l fs = inl e0.
Proof.
intros Hf Hin Hx. destruct (mapM f l fs) as [e|ys] eqn:E.
- apply mapM_inl in E as (y & _ & Hy). rewrite (Hf _ _ Hy). reflexivity.
- apply mapM_inr in E. destruct (Forall2_In_left _ _ _ _ E Hin) as (y & _ & Hy). exfalso. exact (Hx _ Hy).
Qed.


End AnnotationFacts.

Section AnnotationTheorems.


(** X16: every value of the [display_disease] column that
    [depmap_annotations] adds is a [str] with no underscore and is never a
    lone space. *)
Theorem depmap_annotations_display raw fs df :
  Process.depmap_annotations raw fs = inr df ->
  exists v, getcol df "display_disease" fs = inr v /\
    Forall (fun c => exists s, c = CStr s /\ ~ In "_"%char (list_ascii_of_string s) /\ s <> " ") v.
Proof.
unfold Process.depmap_annotations. intros H.
apply bind_inr in H. destruct H as (df0 & _ & H).
apply bind_inr in H. destruct H as (lin & _ & H).
apply bind_inr in H. destruct H as (d & Hd & H).
rewrite (bind_inr_l _ _ _ _ (getcol_setcol_same df0 "display_disease" d fs)) in H.
injection H as <-.
eexists. split; [apply getcol_astype_str, getcol_setcol_same|].
apply mapM_inr in Hd. clear -Hd.
induction Hd as [|x y l l' Hxy _ IH]; [constructor|]. cbn [map]. constructor; [|exact IH].
destruct (display_disease_of_inr _ _ _ Hxy) as (s & -> & Hs).
destruct (unknown_if_blank_str s Hs) as (s' & -> & Hs' & Hne).
exists s'. split; [reflexivity | split; assumption].
Qed.

(** X17: [depmap_annotations] raises [AttributeError] when a value of
    the [lineage] column is not a [str] (a missing lineage is read as NaN,
    a [float], which has no [replace]). *)
Theorem depmap_annotations_lineage_error raw fs df0 v x :
  read_csv_index0 raw fs = inr df0 -> getcol df0 "lineage" fs = inr v -> In x v ->
  (forall s, x <> CStr s) ->
  Process.depmap_annotations raw fs = inl AttributeError.
Proof.
intros Hr Hl Hin Hx. unfold Process.depmap_annotations.
rewrite (bind_inr_l _ _ _ _ Hr), (bind_inr_l _ _ _ _ Hl). unfold bind at 1.
rewrite (mapM_inl_only Process.display_disease_of v fs AttributeError x); [reflexivity | | exact Hin |].
- intros y e. apply display_disease_of_inl.
- intros b. destruct x; cbn; try discriminate. exfalso. exact (Hx _ eq_refl).
Qed.

End AnnotationTheorems.

Module Float16Examples.
Import Examples.


Lemma snake_columns_index_error_witness :
  fs_downloads gene_effect_bad_files !! "download/gene_effect.csv" = Some gene_effect_bad_raw /\
  In "NAT2" (tail (rt_header gene_effect_bad_raw)) /\
  ~ In "("%char (list_ascii_of_string "NAT2") /\
  Process.avana "download/gene_effect.csv" gene_effect_bad_files = inl IndexError /\
  Process.depmap_gene_tpm "download/gene_effect.csv" gene_effect_bad_files = inl IndexError.
Proof.
assert (Ht : fs_downloads gene_effect_bad_files !! "download/gene_effect.csv" = Some gene_effect_bad_raw)
  by reflexivity.
assert (Hin : In "NAT2" (tail (rt_header gene_effect_bad_raw))) by (right; left; reflexivity).
assert (Hh : ~ In "("%char (list_ascii_of_string "NAT2"))
  by (cbn; intros [H|[H|[H|[H|[]]]]]; discriminate).
exact (conj Ht (conj Hin (conj Hh
  (snake_columns_index_error "download/gene_effect.csv" gene_effect_bad_files gene_effect_bad_raw "NAT2"
     Ht Hin Hh)))).
Defined.


End Float16Examples.

Module AnnotationExamples.
Import Examples.


Lemma depmap_annotations_display_witness :
  Process.depmap_annotations "download/sample_info.csv" annotations_files = inr annotations_df /\
  getcol annotations_df "display_disease" annotations_files
    = inr [CStr "Ovary"; CStr "Blood myeloid"; CStr "Unknown"] /\
  exists v, getcol annotations_df "display_disease" annotations_files = inr v /\
    Forall (fun c => exists s, c = CStr s /\ ~ In "_"%char (list_ascii_of_string s) /\ s <> " ") v.
Proof.
assert (E : Process.depmap_annotations "download/sample_info.csv" annotations_files = inr annotations_df)
  by (vm_compute; reflexivity).
split; [exact E|]. split; [vm_compute; reflexivity|].
exact (depmap_annotations_display _ _ _ E).
Defined.

Lemma depmap_annotations_lineage_error_witness :
  read_csv_index0 "download/sample_info.csv" annotations_nan_files = inr annotations_nan_read /\
  getcol annotations_nan_read "lineage" annotations_nan_files = inr [CStr "ovary"; NaN] /\
  In NaN [CStr "ovary"; NaN] /\ (forall s, NaN <> CStr s) /\
  Process.depmap_annotations "download/sample_info.csv" annotations_nan_files = inl AttributeError.
Proof.
assert (E1 : read_csv_index0 "download/sample_info.csv" annotations_nan_files = inr annotations_nan_read)
  by (vm_compute; reflexivity).
assert (E2 : getcol annotations_nan_read "lineage" annotations_nan_files = inr [CStr "ovary"; NaN])
  by (vm_compute; reflexivity).
assert (E3 : In NaN [CStr "ovary"; NaN]) by (right; left; reflexivity).
assert (E4 : forall s, NaN <> CStr s) by (intros s; discriminate).
exact (conj E1 (conj E2 (conj E3 (conj E4
  (depmap_annotations_lineage_error _ _ _ _ _ E1 E2 E3 E4))))).
Defined.

End AnnotationExamples.
